(** * The training runner of [playground/common/runner.py]

    A shallow embedding of the runner: the configuration dataclasses, the
    progress reporter, the training orchestrator, the checkpoint store and
    the evaluator, with the properties of each.

    Conventions of the embedding.
    - Python [int] is [Z]; Python [float] is a rational [Q] (the value of the
      literal, rounding is not modelled); the entries of a jax array are
      float32 numbers, rounded as such; [str] is [string].
    - A Python [dict] and a [ConfigDict] are association lists in insertion
      order with unique keys; the metrics mapping and the directories of the
      file system are finite maps.
    - A method is a computation over the [World] (the runner object, the file
      system, the logger and the clock) that returns a value or raises; what
      it mutated before raising stays mutated. *)

From stdpp Require Import gmap strings list pretty sorting.
From Stdlib Require Import QArith.

Set Warnings "-register-all".

Local Open Scope string_scope.
Local Open Scope list_scope.
Local Open Scope Z_scope.

(** ** Python values *)

(** The values a hyperparameter can hold.  [PConfig] is a [ConfigDict]
    object, [PDict] a plain [dict]. *)
Inductive pyval : Type :=
| PNone
| PBool (b : bool)
| PInt (n : Z)
| PFloat (x : Q)
| PStr (s : string)
| PTuple (xs : list pyval)
| PList (xs : list pyval)
| PDict (kvs : list (string * pyval))
| PConfig (kvs : list (string * pyval)).

Abbreviation pydict := (list (string * pyval)).

Section pyval_induction.
Variable P : pyval → Prop.
Hypothesis HNone : P PNone.
Hypothesis HBool : ∀ b, P (PBool b).
Hypothesis HInt : ∀ n, P (PInt n).
Hypothesis HFloat : ∀ x, P (PFloat x).
Hypothesis HStr : ∀ s, P (PStr s).
Hypothesis HTuple : ∀ xs, Forall P xs → P (PTuple xs).
Hypothesis HList : ∀ xs, Forall P xs → P (PList xs).
Hypothesis HDict : ∀ kvs, Forall (λ kv, P kv.2) kvs → P (PDict kvs).
Hypothesis HConfig : ∀ kvs, Forall (λ kv, P kv.2) kvs → P (PConfig kvs).

Fixpoint pyval_nested_ind (v : pyval) : P v :=
  let fix seq (xs : list pyval) : Forall P xs :=
    match xs with
    | [] => Forall_nil_2 _
    | x :: xs' => Forall_cons_2 _ _ _ (pyval_nested_ind x) (seq xs')
    end in
  let fix items (kvs : pydict) : Forall (λ kv, P kv.2) kvs :=
    match kvs with
    | [] => Forall_nil_2 _
    | (k, x) :: kvs' =>
        Forall_cons_2 (λ kv, P kv.2) (k, x) kvs' (pyval_nested_ind x) (items kvs')
    end in
  match v with
  | PNone => HNone
  | PBool b => HBool b
  | PInt n => HInt n
  | PFloat x => HFloat x
  | PStr s => HStr s
  | PTuple xs => HTuple xs (seq xs)
  | PList xs => HList xs (seq xs)
  | PDict kvs => HDict kvs (items kvs)
  | PConfig kvs => HConfig kvs (items kvs)
  end.
End pyval_induction.

(** *** Dictionaries in insertion order *)

Fixpoint dict_get {A} (k : string) (d : list (string * A)) : option A :=
  match d with
  | [] => None
  | (k', v) :: d' => if decide (k = k') then Some v else dict_get k d'
  end.

(** [d[k] = v]: the value is replaced where the key stands, a new key goes
    to the end. *)
Fixpoint dict_set {A} (k : string) (v : A) (d : list (string * A)) : list (string * A) :=
  match d with
  | [] => [(k, v)]
  | (k', v') :: d' =>
      if decide (k = k') then (k', v) :: d' else (k', v') :: dict_set k v d'
  end.

(** [del d[k]]. *)
Fixpoint dict_del {A} (k : string) (d : list (string * A)) : list (string * A) :=
  match d with
  | [] => []
  | (k', v') :: d' =>
      if decide (k = k') then dict_del k d' else (k', v') :: dict_del k d'
  end.

Definition dict_mem {A} (k : string) (d : list (string * A)) : bool :=
  bool_decide (is_Some (dict_get k d)).

Definition dict_keys {A} (d : list (string * A)) : list string := d.*1.

(** *** ConfigDict *)

(** Modelled from the spec: [ConfigDict.to_dict()] belongs to the library
    ml_collections, which is absent.  Following the spec, it turns a
    ConfigDict into a plain mapping, nested ConfigDicts included, leaving no
    ConfigDict object behind. *)
Fixpoint to_plain (v : pyval) : pyval :=
  match v with
  | PTuple xs => PTuple (map to_plain xs)
  | PList xs => PList (map to_plain xs)
  | PDict kvs => PDict (map (λ '(k, x), (k, to_plain x)) kvs)
  | PConfig kvs => PDict (map (λ '(k, x), (k, to_plain x)) kvs)
  | _ => v
  end.

Definition ConfigDict_to_dict (kvs : pydict) : pydict :=
  map (λ '(k, x), (k, to_plain x)) kvs.

(** [config_dict.create] of the same library on keyword arguments: every
    nested mapping becomes a ConfigDict. *)
Fixpoint to_config (v : pyval) : pyval :=
  match v with
  | PDict kvs => PConfig (map (λ '(k, x), (k, to_config x)) kvs)
  | PConfig kvs => PConfig (map (λ '(k, x), (k, to_config x)) kvs)
  | _ => v
  end.

Definition config_dict_create (kwargs : pydict) : pydict :=
  map (λ '(k, x), (k, to_config x)) kwargs.

(** [isinstance(v, config_dict.ConfigDict)]. *)
Definition isinstance_ConfigDict (v : pyval) : bool :=
  match v with PConfig _ => true | _ => false end.

(** No ConfigDict object anywhere inside the value. *)
Fixpoint plain (v : pyval) : bool :=
  match v with
  | PTuple xs | PList xs => forallb plain xs
  | PDict kvs => forallb (λ '(_, x), plain x) kvs
  | PConfig _ => false
  | _ => true
  end.

(** ** JSON *)

Inductive json : Type :=
| JNull
| JBool (b : bool)
| JInt (n : Z)
| JFloat (x : Q)
| JStr (s : string)
| JArr (xs : list json)
| JObj (kvs : list (string * json)).

(** [json.dump]: tuples and lists are arrays, dicts are objects; an object
    of any other class (here a ConfigDict) is refused with a TypeError,
    rendered by [None]. *)
Fixpoint json_encode (v : pyval) : option json :=
  match v with
  | PNone => Some JNull
  | PBool b => Some (JBool b)
  | PInt n => Some (JInt n)
  | PFloat x => Some (JFloat x)
  | PStr s => Some (JStr s)
  | PTuple xs | PList xs => JArr <$> mapM json_encode xs
  | PDict kvs =>
      JObj <$> mapM (λ '(k, x), pair k <$> json_encode x) kvs
  | PConfig _ => None
  end.

(** [json.load]: arrays come back as lists, objects as dicts; of a repeated
    key the last value stays. *)
Fixpoint json_decode (j : json) : pyval :=
  match j with
  | JNull => PNone
  | JBool b => PBool b
  | JInt n => PInt n
  | JFloat x => PFloat x
  | JStr s => PStr s
  | JArr xs => PList (map json_decode xs)
  | JObj kvs =>
      PDict (foldl (λ d '(k, x), dict_set k x d) []
                   (map (λ '(k, x), (k, json_decode x)) kvs))
  end.

(** ** TrainingConfig *)

Record TrainingConfig : Type := {
  num_timesteps : Z;
  num_evals : Z;
  reward_scaling : Q;
  episode_length : Z;
  normalize_observations : bool;
  action_repeat : Z;
  unroll_length : Z;
  num_minibatches : Z;
  num_updates_per_batch : Z;
  discounting : Q;
  learning_rate : Q;
  entropy_cost : Q;
  num_envs : Z;
  batch_size : Z;
  max_grad_norm : Q;
  clipping_epsilon : Q;
  num_resets_per_eval : Z;
  network_factory : pyval;
}.


(** [dataclasses.asdict]: one entry per declared field; a field value that
    is not itself a dataclass is copied, so a ConfigDict stays one. *)
Definition asdict (c : TrainingConfig) : pydict :=
  [ ("num_timesteps", PInt (num_timesteps c));
    ("num_evals", PInt (num_evals c));
    ("reward_scaling", PFloat (reward_scaling c));
    ("episode_length", PInt (episode_length c));
    ("normalize_observations", PBool (normalize_observations c));
    ("action_repeat", PInt (action_repeat c));
    ("unroll_length", PInt (unroll_length c));
    ("num_minibatches", PInt (num_minibatches c));
    ("num_updates_per_batch", PInt (num_updates_per_batch c));
    ("discounting", PFloat (discounting c));
    ("learning_rate", PFloat (learning_rate c));
    ("entropy_cost", PFloat (entropy_cost c));
    ("num_envs", PInt (num_envs c));
    ("batch_size", PInt (batch_size c));
    ("max_grad_norm", PFloat (max_grad_norm c));
    ("clipping_epsilon", PFloat (clipping_epsilon c));
    ("num_resets_per_eval", PInt (num_resets_per_eval c));
    ("network_factory", network_factory c) ].

(** [TrainingConfig.to_dict]. *)
Definition to_dict (c : TrainingConfig) : pydict :=
  let result := asdict c in
  match network_factory c with
  | PConfig kvs => dict_set "network_factory" (PDict (ConfigDict_to_dict kvs)) result
  | _ => result
  end.

(** ** Configuration builder *)

(** [BaseRunner._create_training_config]; [env_episode_length] is
    [self.env_config.episode_length]. *)
Definition _create_training_config (is_debug : bool) (env_episode_length : Z)
  : TrainingConfig :=
  {| num_timesteps := if is_debug then 5 else 500000000;
     num_evals := 15;
     reward_scaling := 1;
     episode_length := if is_debug then 1 else env_episode_length;
     normalize_observations := true;
     action_repeat := 1;
     unroll_length := 20;
     num_minibatches := if is_debug then 1 else 32;
     num_updates_per_batch := if is_debug then 1 else 4;
     discounting := 97 # 100;
     learning_rate := 3 # 10000;
     entropy_cost := 1 # 100;
     num_envs := if is_debug then 1 else 32;
     batch_size := if is_debug then 2 else 256;
     max_grad_norm := 1;
     clipping_epsilon := 2 # 10;
     num_resets_per_eval := 1;
     network_factory :=
       PConfig
         [ ("policy_hidden_layer_sizes", PTuple [PInt 512; PInt 256; PInt 128]);
           ("value_hidden_layer_sizes", PTuple [PInt 512; PInt 256; PInt 128]);
           ("policy_obs_key", PStr "state");
           ("value_obs_key", PStr "privileged_state") ] |}.

(** The count-like hyperparameters. *)
Inductive CountField : Type :=
| CF_num_timesteps
| CF_num_evals
| CF_num_minibatches
| CF_num_updates_per_batch
| CF_num_envs
| CF_batch_size
| CF_unroll_length
| CF_num_resets_per_eval.

Definition count_value (f : CountField) (c : TrainingConfig) : Z :=
  match f with
  | CF_num_timesteps => num_timesteps c
  | CF_num_evals => num_evals c
  | CF_num_minibatches => num_minibatches c
  | CF_num_updates_per_batch => num_updates_per_batch c
  | CF_num_envs => num_envs c
  | CF_batch_size => batch_size c
  | CF_unroll_length => unroll_length c
  | CF_num_resets_per_eval => num_resets_per_eval c
  end.

Definition near_trivial (n : Z) : Prop := n = 1 ∨ n = 2.

(** The field is near-trivial in debug mode and strictly below its
    production value. *)
Definition debug_cheaper (f : CountField) (env_episode_length : Z) : Prop :=
  near_trivial (count_value f (_create_training_config true env_episode_length))
  ∧ count_value f (_create_training_config true env_episode_length)
    < count_value f (_create_training_config false env_episode_length).

(** ** The world of the runner *)

(** The parameter blob of a policy; [TreeNone] is Python's [None]. *)
Inductive PyTree : Type :=
| TreeNone
| TreeLeaves (ws : list Q).

Record TrainingState : Type := {
  x_data : list Z;
  y_data : list Q;
  y_dataerr : list Q;
  times : list Z;
  rl_config : pydict;
  params : PyTree;
}.

Record Args : Type := {
  args_env : string;
  args_task : string;
  args_debug : bool;
  args_save_model : bool;
}.

(** The fields of [BaseRunner] that the methods below read or write;
    [env_config_episode_length] is [self.env_config.episode_length]. *)
Record Runner : Type := {
  args : Args;
  env_name : string;
  env_config_episode_length : Z;
  training_config : TrainingConfig;
  training_state : TrainingState;
}.

(** What [plt.savefig] draws. *)
Record Plot : Type := {
  plot_xlim : Q * Q;
  plot_title : Q;
  plot_x : list Z;
  plot_y : list Q;
  plot_yerr : list Q;
}.

(** An image of [frame_height] rows and [frame_width] columns of three
    channels. *)
Record Frame : Type := {
  frame_height : Z;
  frame_width : Z;
  frame_pixels : list (Z * Z * Z);
}.

Record Video : Type := {
  video_fps : Q;
  video_size : Z * Z;
  video_frames : list Frame;
}.

(** The content of a file: the text of a JSON document (held as the
    document), a figure, a video, or any other bytes. *)
Inductive file : Type :=
| FJson (j : json)
| FPlot (p : Plot)
| FVideo (v : Video)
| FBytes (s : string).

(** A directory [checkpoints/<env_name>]: the step-numbered checkpoints and
    the plain files next to them. *)
Record CkptDir : Type := {
  ckpt_steps : gmap Z PyTree;
  ckpt_files : gmap string file;
}.

(** The working directory and the directories under [checkpoints/], by
    environment name. *)
Record FileSystem : Type := {
  cwd : gmap string file;
  checkpoints : gmap string CkptDir;
}.

Inductive LogRecord : Type :=
| LogRLConfig (d : pydict)
| LogTimeToJit (d : Z)
| LogTimeToTrain (d : Z)
| LogEpisodeReward (episode : nat) (r : Q)
| LogFps (fps : Q)
| LogModelSaved (step : Z) (dir : string)
| LogLoadedConfiguration (path : string)
| LogModelLoaded (step : Z).

Record World : Type := {
  self : Runner;
  fs : FileSystem;
  clock : Z;
  logs : list LogRecord;
}.

(** ** Exceptions and methods *)

Inductive exn : Type :=
| FileNotFoundError (msg : string)
| KeyError (key : string)
| IndexError
| AttributeError (name : string)
| TypeError
| ZeroDivisionError
| JSONDecodeError
| ExternalError (msg : string).

Inductive result (A : Type) : Type :=
| Ok (a : A)
| Raise (e : exn).
Arguments Ok {A} a.
Arguments Raise {A} e.

(** The "not found" condition. *)
Definition is_not_found {A} (r : result A) : bool :=
  match r with
  | Raise (FileNotFoundError _) => true
  | _ => false
  end.

Definition is_ok {A} (r : result A) : bool :=
  match r with Ok _ => true | Raise _ => false end.

(** A method: it runs in a world, leaves a world, and returns or raises.
    The world it leaves when it raises holds every mutation made before. *)
Definition M (A : Type) : Type := World → World * result A.

#[export] Instance M_ret : MRet M := λ A a w, (w, Ok a).
#[export] Instance M_bind : MBind M := λ A B f m w,
  match m w with
  | (w', Ok a) => f a w'
  | (w', Raise e) => (w', Raise e)
  end.

Definition raise {A} (e : exn) : M A := λ w, (w, Raise e).
Definition get_self : M Runner := λ w, (w, Ok (self w)).
Definition get_fs : M FileSystem := λ w, (w, Ok (fs w)).

Definition set_training_state (ts : TrainingState) (r : Runner) : Runner :=
  {| args := args r; env_name := env_name r;
     env_config_episode_length := env_config_episode_length r;
     training_config := training_config r; training_state := ts |}.

Definition modify_training_state (f : TrainingState → TrainingState) : M unit :=
  λ w, ({| self := set_training_state (f (training_state (self w))) (self w);
           fs := fs w; clock := clock w; logs := logs w |}, Ok ()).

Definition put_fs (f : FileSystem) : M unit :=
  λ w, ({| self := self w; fs := f; clock := clock w; logs := logs w |}, Ok ()).

(** [self.logger.info]. *)
Definition logger_info (r : LogRecord) : M unit :=
  λ w, ({| self := self w; fs := fs w; clock := clock w;
           logs := logs w ++ [r] |}, Ok ()).

(** [datetime.now()]: the reading of a clock that every reading advances. *)
Definition datetime_now : M Z :=
  λ w, ({| self := self w; fs := fs w; clock := clock w + 1; logs := logs w |},
        Ok (clock w)).

Definition of_result {A} (r : result A) : M A :=
  match r with Ok a => mret a | Raise e => raise e end.

Definition of_option {A} (e : exn) (o : option A) : M A :=
  match o with Some a => mret a | None => raise e end.

(** [l[i]] with Python's negative indices. *)
Definition py_index {A} (l : list A) (i : Z) : option A :=
  if decide (0 ≤ i) then l !! Z.to_nat i
  else if decide (- i ≤ Z.of_nat (length l))
       then l !! (length l - Z.to_nat (- i))%nat
       else None.

Definition list_getitem {A} (l : list A) (i : Z) : M A :=
  of_option IndexError (py_index l i).

(** The updates of [TrainingState]'s lists. *)
Definition times_append (t : Z) (ts : TrainingState) : TrainingState :=
  {| x_data := x_data ts; y_data := y_data ts; y_dataerr := y_dataerr ts;
     times := times ts ++ [t]; rl_config := rl_config ts; params := params ts |}.
Definition x_data_append (n : Z) (ts : TrainingState) : TrainingState :=
  {| x_data := x_data ts ++ [n]; y_data := y_data ts; y_dataerr := y_dataerr ts;
     times := times ts; rl_config := rl_config ts; params := params ts |}.
Definition y_data_append (y : Q) (ts : TrainingState) : TrainingState :=
  {| x_data := x_data ts; y_data := y_data ts ++ [y]; y_dataerr := y_dataerr ts;
     times := times ts; rl_config := rl_config ts; params := params ts |}.
Definition y_dataerr_append (y : Q) (ts : TrainingState) : TrainingState :=
  {| x_data := x_data ts; y_data := y_data ts; y_dataerr := y_dataerr ts ++ [y];
     times := times ts; rl_config := rl_config ts; params := params ts |}.
Definition set_params (p : PyTree) (ts : TrainingState) : TrainingState :=
  {| x_data := x_data ts; y_data := y_data ts; y_dataerr := y_dataerr ts;
     times := times ts; rl_config := rl_config ts; params := p |}.

(** Files of the working directory and of a checkpoint directory. *)
Definition write_cwd (name : string) (f : file) (s : FileSystem) : FileSystem :=
  {| cwd := <[name := f]> (cwd s); checkpoints := checkpoints s |}.

Definition empty_dir : CkptDir := {| ckpt_steps := ∅; ckpt_files := ∅ |}.

(** [Path.mkdir(parents=True, exist_ok=True)]. *)
Definition mkdir (dir : string) (s : FileSystem) : FileSystem :=
  match checkpoints s !! dir with
  | Some _ => s
  | None => {| cwd := cwd s; checkpoints := <[dir := empty_dir]> (checkpoints s) |}
  end.

Definition update_dir (dir : string) (f : CkptDir → CkptDir) (s : FileSystem)
  : FileSystem :=
  {| cwd := cwd s; checkpoints := alter f dir (checkpoints s) |}.

Definition write_in_dir (name : string) (c : file) (d : CkptDir) : CkptDir :=
  {| ckpt_steps := ckpt_steps d; ckpt_files := <[name := c]> (ckpt_files d) |}.

(** [with open(path, "w") as fp: json.dump(obj, fp, indent=4)]: opening
    truncates the file; a value that is not serializable raises a TypeError
    and leaves the file without a document. *)
Definition json_dump_to (dir name : string) (obj : pyval) : M unit :=
  s ← get_fs;
  put_fs (update_dir dir (write_in_dir name (FBytes "")) s);;
  match json_encode obj with
  | Some j => put_fs (update_dir dir (write_in_dir name (FJson j)) s)
  | None => raise TypeError
  end.

(** [json.load] of an open file. *)
Definition json_load (f : file) : M pyval :=
  match f with
  | FJson j => mret (json_decode j)
  | _ => raise JSONDecodeError
  end.

(** The name [config_<step>.json]. *)
Definition config_step_name (step : Z) : string :=
  "config_" +:+ pretty step +:+ ".json".

(** ** The checkpoint manager *)

(** Modelled from the spec: the checkpoint manager that [save_model] and
    [load_model] call is an external library.  Following the spec, it scans
    the step-numbered entries of the directory and sorts them: the latest
    step is the highest one, the retention sweep keeps the [max_to_keep]
    highest steps and evicts the older ones, and restoring a step that is
    not on disk is a "not found" condition. *)
Definition all_steps (d : CkptDir) : list Z :=
  merge_sort Z.le (elements (dom (ckpt_steps d))).

(** Modelled from the spec: [CheckpointManager.latest_step()], which is
    absent like the rest of the manager: the highest step on disk, or
    nothing when there is no checkpoint. *)
Definition latest_step (d : CkptDir) : option Z := last (all_steps d).

(** Modelled from the spec: the retention sweep of the absent manager.  The
    steps to evict are all but the last [max_to_keep] of the sorted steps. *)
Definition steps_to_remove (max_to_keep : nat) (d : CkptDir) : list Z :=
  take (length (all_steps d) - max_to_keep) (all_steps d).

(** Modelled from the spec: the directory after the sweep of the absent
    manager. *)
Definition retention_sweep (max_to_keep : nat) (d : CkptDir) : CkptDir :=
  {| ckpt_steps := foldr delete (ckpt_steps d) (steps_to_remove max_to_keep d);
     ckpt_files := ckpt_files d |}.

(** The directory with [item] written at [step]. *)
Definition write_step (step : Z) (item : PyTree) (d : CkptDir) : CkptDir :=
  {| ckpt_steps := <[step := item]> (ckpt_steps d); ckpt_files := ckpt_files d |}.

(** Modelled from the spec: [CheckpointManager(dir,
    options=CheckpointManagerOptions(max_to_keep=n)).save(step, item)] of the
    absent manager: the item is written at the step, then the sweep runs. *)
Definition manager_save (max_to_keep : nat) (step : Z) (item : PyTree)
    (d : CkptDir) : CkptDir :=
  retention_sweep max_to_keep (write_step step item d).

(** Modelled from the spec: [CheckpointManager(dir).restore(step)] of the
    absent manager: the item at the step, or the "not found" condition. *)
Definition manager_restore (step : Z) (d : CkptDir) : M PyTree :=
  of_option (FileNotFoundError "checkpoint step not found") (ckpt_steps d !! step).

(** ** The runner *)

(** [BaseRunner._get_rl_config_dict]. *)
Definition _get_rl_config_dict : M pydict :=
  r ← get_self;
  let config_dict := to_dict (training_config r) in
  logger_info (LogRLConfig config_dict);;
  mret config_dict.

(** [BaseRunner.__init__], after [setup_environment] has given the
    environment and its configuration: the new runner in the world it is
    made in. *)
Definition __init__ (a : Args) (episode_length_of_env : Z)
    (s : FileSystem) (now : Z) (l : list LogRecord) : World :=
  let cfg := _create_training_config (args_debug a) episode_length_of_env in
  {| self :=
       {| args := a; env_name := args_env a;
          env_config_episode_length := episode_length_of_env;
          training_config := cfg;
          training_state :=
            {| x_data := []; y_data := []; y_dataerr := [];
               times := [now];
               rl_config := config_dict_create (to_dict cfg);
               params := TreeNone |} |};
     fs := s; clock := now + 1;
     logs := l ++ [LogRLConfig (to_dict cfg)] |}.

(** [BaseRunner._save_rl_config_dict]; its argument [path] is not used. *)
Definition _save_rl_config_dict (path : string) : M unit :=
  r ← get_self;
  let ckpt_path := env_name r in
  s ← get_fs;
  put_fs (mkdir ckpt_path s);;
  json_dump_to ckpt_path "config.json" (PDict (to_dict (training_config r))).

(** [x * 1.25] for the value of a hyperparameter. *)
Definition times_float (v : pyval) (x : Q) : M Q :=
  match v with
  | PInt n => mret (inject_Z n * x)%Q
  | PFloat y => mret (y * x)%Q
  | PBool b => mret (inject_Z (if b then 1 else 0) * x)%Q
  | _ => raise TypeError
  end.

(** [BaseRunner.progress_callback].  The calls to matplotlib draw into a
    figure that [plt.savefig] writes to [plot.png]. *)
Definition progress_callback (num_steps : Z) (metrics : gmap string Q) : M unit :=
  now ← datetime_now;
  modify_training_state (times_append now);;
  modify_training_state (x_data_append num_steps);;
  reward ← of_option (KeyError "eval/episode_reward")
             (metrics !! "eval/episode_reward");
  modify_training_state (y_data_append reward);;
  reward_std ← of_option (KeyError "eval/episode_reward_std")
                 (metrics !! "eval/episode_reward_std");
  modify_training_state (y_dataerr_append reward_std);;
  r ← get_self;
  let ts := training_state r in
  total ← of_option (KeyError "num_timesteps")
            (dict_get "num_timesteps" (rl_config ts));
  hi ← times_float total (125 # 100);
  y ← list_getitem (y_data ts) (-1);
  s ← get_fs;
  put_fs (write_cwd "plot.png"
            (FPlot {| plot_xlim := (0%Q, hi); plot_title := y;
                      plot_x := x_data ts; plot_y := y_data ts;
                      plot_yerr := y_dataerr ts |}) s).

(** [x_data[-1] if x_data else 0]. *)
Definition save_step (ts : TrainingState) : Z :=
  match last (x_data ts) with Some n => n | None => 0 end.

(** [BaseRunner.save_model]. *)
Definition save_model : M unit :=
  r ← get_self;
  let ckpt_dir := env_name r in
  s ← get_fs;
  put_fs (mkdir ckpt_dir s);;
  let ts := training_state r in
  let step := save_step ts in
  s ← get_fs;
  put_fs (update_dir ckpt_dir (manager_save 5 step (params ts)) s);;
  config_dict ← _get_rl_config_dict;
  json_dump_to ckpt_dir (config_step_name step)
               (PDict (to_dict (training_config r)));;
  logger_info (LogModelSaved step ckpt_dir).

(** [BaseRunner.load_model]. *)
Definition load_model (step : option Z) : M unit :=
  r ← get_self;
  let ckpt_dir := env_name r in
  s ← get_fs;
  match checkpoints s !! ckpt_dir with
  | None => raise (FileNotFoundError "Checkpoint directory not found")
  | Some d =>
      step ← match step with
             | Some n => mret n
             | None =>
                 of_option (FileNotFoundError "No checkpoints found")
                           (latest_step d)
             end;
      p ← manager_restore step d;
      modify_training_state (set_params p);;
      let config_path := config_step_name step in
      match ckpt_files d !! config_path with
      | Some f =>
          loaded_config ← json_load f;
          logger_info (LogLoadedConfiguration config_path)
      | None => mret ()
      end;;
      logger_info (LogModelLoaded step)
  end.

(** ** Training *)

(** What one call of the external trainer does, as the runner sees it: it
    calls the progress function on each of [ticks] in turn, then returns the
    trained parameters or raises. *)
Record TrainerRun : Type := {
  ticks : list (Z * gmap string Q);
  outcome : result PyTree;
}.

(** The network factory handed to the trainer: [make_ppo_networks] itself,
    or its partial application to [activation=linen.elu] and the keywords of
    the configuration. *)
Inductive NetworkFactory : Type :=
| make_ppo_networks
| make_ppo_networks_with (kwargs : pydict).

(** Unpacking a value as keyword arguments. *)
Definition as_mapping (v : pyval) : M pydict :=
  match v with
  | PDict d | PConfig d => mret d
  | _ => raise TypeError
  end.

(** The first lines of [train]: the network factory and the keyword
    arguments for the trainer, from the hyperparameters. *)
Definition training_arguments (rl : pydict) : result (NetworkFactory * pydict) :=
  let ppo_training_params := rl in
  match dict_get "network_factory" rl with
  | Some (PDict kwargs) | Some (PConfig kwargs) =>
      Ok (make_ppo_networks_with kwargs,
          dict_del "network_factory" ppo_training_params)
  | Some _ => Raise TypeError
  | None => Ok (make_ppo_networks, ppo_training_params)
  end.

Section Train.
(** [ppo.train] with the environments, the randomizer and the wrapper of
    this runner, as a function of the hyperparameters and of the network
    factory. *)
Variable ppo_train : pydict → NetworkFactory → TrainerRun.

Fixpoint run_ticks (l : list (Z * gmap string Q)) : M unit :=
  match l with
  | [] => mret ()
  | (num_steps, metrics) :: l' =>
      progress_callback num_steps metrics;; run_ticks l'
  end.

(** [BaseRunner.train]. *)
Definition train : M unit :=
  r ← get_self;
  let rl := rl_config (training_state r) in
  '(network_factory, ppo_training_params) ← of_result (training_arguments rl);
  let run := ppo_train ppo_training_params network_factory in
  run_ticks (ticks run);;
  trained ← of_result (outcome run);
  r ← get_self;
  let ts := times (training_state r) in
  t1 ← list_getitem ts 1;
  t0 ← list_getitem ts 0;
  logger_info (LogTimeToJit (t1 - t0));;
  tn ← list_getitem ts (-1);
  t1 ← list_getitem ts 1;
  logger_info (LogTimeToTrain (tn - t1));;
  if args_save_model (args r)
  then modify_training_state (set_params trained);; save_model
  else mret ().
End Train.

(** ** Evaluation *)

(** The capabilities of an environment that the runner uses.
    [render_state] gives the frame of one state for a camera, a set of
    visualization toggles, a width and a height. *)
Record MjxEnv (Rng EnvState Ctrl : Type) : Type := {
  reset : Rng → EnvState;
  step : EnvState → Ctrl → EnvState;
  render_state : EnvState → string → list (string * bool) → Z → Z → Frame;
  dt : Q;
  observation_size : Z;
  action_size : Z;
}.
Arguments reset {Rng EnvState Ctrl} _ _.
Arguments step {Rng EnvState Ctrl} _ _ _.
Arguments render_state {Rng EnvState Ctrl} _ _ _ _ _ _.
Arguments dt {Rng EnvState Ctrl} _.
Arguments observation_size {Rng EnvState Ctrl} _.
Arguments action_size {Rng EnvState Ctrl} _.

(** Modelled from the spec: [MjxEnv.render] of [mujoco_playground._src],
    which is not among the sources here.  Following the spec, the rendering
    capability gives one frame buffer per state of the trajectory it is
    handed, in order. *)
Definition render {Rng EnvState Ctrl} (e : MjxEnv Rng EnvState Ctrl)
    (trajectory : list EnvState) (camera : string)
    (scene_option : list (string * bool)) (width height : Z) : list Frame :=
  map (λ s, render_state e s camera scene_option width height) trajectory.

(** The visualization toggles that [render_episode] sets on a new
    [mujoco.MjvOption]. *)
Definition scene_option : list (string * bool) :=
  [ ("geomgroup[2]", true); ("geomgroup[3]", false);
    ("mjVIS_CONTACTPOINT", true); ("mjVIS_TRANSPARENT", false);
    ("mjVIS_PERTFORCE", false) ].

(** [cv2.cvtColor(frame, cv2.COLOR_RGB2BGR)]. *)
Definition cvtColor_RGB2BGR (f : Frame) : Frame :=
  {| frame_height := frame_height f; frame_width := frame_width f;
     frame_pixels := map (λ '(r, g, b), (b, g, r)) (frame_pixels f) |}.

(** [BaseRunner.save_video]. *)
Definition save_video (frames : list Frame) (fps : Q) (filename : string)
  : M unit :=
  f0 ← list_getitem frames 0;
  let height := frame_height f0 in
  let width := frame_width f0 in
  s ← get_fs;
  put_fs (write_cwd filename
            (FVideo {| video_fps := fps; video_size := (width, height);
                       video_frames := map cvtColor_RGB2BGR frames |}) s).

(** Division of floats. *)
Definition float_div (x y : Q) : M Q :=
  if Qeq_bool y 0 then raise ZeroDivisionError else mret (x / y)%Q.

(** *** float32

    A jax array of floats holds float32 numbers: a number with 24
    significant bits.  The exponent range is not modelled: no number
    overflows to infinity and none is subnormal. *)

(** The fraction [n / d] of positive integers rounded to the nearest
    integer, a tie to the even one. *)
Definition round_half_even (n d : Z) : Z :=
  let q := n / d in
  let r := n mod d in
  if decide (2 * r < d) then q
  else if decide (d < 2 * r) then q + 1
  else if Z.even q then q else q + 1.

(** [(n / d) / 2 ^ k] as a fraction. *)
Definition scale2 (k n d : Z) : Z * Z :=
  if decide (0 ≤ k) then (n, d * 2 ^ k) else (n * 2 ^ (- k), d).

(** [m * 2 ^ k]. *)
Definition times_pow2 (m k : Z) : Q :=
  if decide (0 ≤ k) then inject_Z (m * 2 ^ k)
  else Qmake m (Z.to_pos (2 ^ (- k))).

(** The float32 nearest to a number, a tie going to the one with the even
    significand: with [2 ^ e ≤ |x| < 2 ^ (e + 1)], the multiple of
    [2 ^ (e - 23)] nearest to [x]. *)
Definition f32_round (x : Q) : Q :=
  let x := Qred x in
  let n := Z.abs (Qnum x) in
  let d := Zpos (Qden x) in
  if decide (n = 0) then 0%Q
  else
    let e0 := Z.log2 n - Z.log2 d in
    let '(n0, d0) := scale2 e0 n d in
    let e := if decide (d0 ≤ n0) then e0 else e0 - 1 in
    let k := e - 23 in
    let '(n1, d1) := scale2 k n d in
    Qred (times_pow2 (Z.sgn (Qnum x) * round_half_even n1 d1) k).

(** Addition of float32 numbers. *)
Definition f32_add (x y : Q) : Q := f32_round (x + y).

(** [jnp.array] of a list of numbers. *)
Definition jnp_array (xs : list Q) : list Q := map f32_round xs.

(** [jnp.sum] of a float32 array: the entries are added one after the
    other, every sum rounded to float32. *)
Definition jnp_sum (xs : list Q) : Q := foldl f32_add 0%Q xs.

(** The body of [for i in range(n)], for [i] from [start]. *)
Fixpoint for_range (start n : nat) (body : nat → M unit) : M unit :=
  match n with
  | O => mret ()
  | S n' => body start;; for_range (S start) n' body
  end.

Section Evaluate.
Context {Rng EnvState Obs Ctrl : Type}.
(** [jax.random.PRNGKey] and [jax.random.split]. *)
Variable PRNGKey : nat → Rng.
Variable split : Rng → Rng * Rng.
(** A state exposes [.obs] and [.reward]. *)
Variable obs : EnvState → Obs.
Variable reward : EnvState → Q.
(** [make_inference_fn(make_ppo_networks(observation_size, action_size,
    **kwargs))(params)]. *)
Variable make_inference_fn : pydict → Z → Z → PyTree → Obs → Rng → Ctrl.
Variable eval_env : MjxEnv Rng EnvState Ctrl.

(** [copy.deepcopy(runner_config.eval_env)]. *)
Definition video_eval_env : MjxEnv Rng EnvState Ctrl := eval_env.

(** [BaseRunner.render_episode]; every scene modification is the no-op. *)
Definition render_episode (rollout : list EnvState) (episode_num : nat)
  : M unit :=
  let render_every := 1%Q in
  q ← float_div 1 (dt eval_env);
  fps ← float_div q render_every;
  logger_info (LogFps fps);;
  let traj := rollout in
  let frames := render eval_env traj "track" scene_option (640 * 2) 480 in
  save_video frames fps ("output_" +:+ pretty episode_num +:+ ".mp4").

(** The states that the inner loop of [evaluate] appends to the rollout. *)
Fixpoint run_episode (inference_fn : Obs → Rng → Ctrl) (n : nat)
    (state : EnvState) (rng : Rng) : list EnvState :=
  match n with
  | O => []
  | S n' =>
      let '(act_rng, rng) := split rng in
      let ctrl := inference_fn (obs state) act_rng in
      let state := step video_eval_env state ctrl in
      state :: run_episode inference_fn n' state rng
  end.

(** The rollout of one episode: the state after the reset, then the
    states of the steps. *)
Definition episode_rollout (r : Runner) (kwargs : pydict) (episode : nat)
  : list EnvState :=
  let inference_fn :=
    make_inference_fn kwargs (observation_size eval_env)
                      (action_size eval_env) (params (training_state r)) in
  let rng := PRNGKey episode in
  let state := reset video_eval_env rng in
  state :: run_episode inference_fn
             (Z.to_nat (env_config_episode_length r)) state rng.

(** [BaseRunner.evaluate]. *)
Definition evaluate : M unit :=
  r ← get_self;
  let ts := training_state r in
  nf ← of_option (AttributeError "network_factory")
         (dict_get "network_factory" (rl_config ts));
  kwargs ← as_mapping nf;
  for_range 0 (Z.to_nat (num_resets_per_eval (training_config r)))
    (λ episode,
       let rollout := episode_rollout r kwargs episode in
       let rewards := jnp_array (map reward rollout) in
       let episode_reward := jnp_sum rewards in
       logger_info (LogEpisodeReward episode episode_reward);;
       render_episode rollout episode).

(** The episode rewards among the records of a log. *)
Definition reported_rewards (l : list LogRecord) : list Q :=
  omap (λ r, match r with LogEpisodeReward _ x => Some x | _ => None end) l.

(** C7 as stated: with steps of reward 1 and episodes of 4 steps, the one
    reward reported is 4. *)
Definition reported_reward_is_four (w : World) : Prop :=
  (∀ s c, (reward (step video_eval_env s c) == 1)%Q) →
  env_config_episode_length (self w) = 4 →
  ∃ x, reported_rewards (logs (evaluate w).1) = [x] ∧ (x == 4)%Q.
End Evaluate.

(** ** Observations and example worlds *)

(** The lengths of [x_data], [y_data], [y_dataerr] and [times]. *)
Definition lengths (w : World) : nat * nat * nat * nat :=
  let ts := training_state (self w) in
  (length (x_data ts), length (y_data ts), length (y_dataerr ts),
   length (times ts)).

(** The directory [checkpoints/<env_name>] of the runner, if it exists. *)
Definition runner_dir (w : World) : option CkptDir :=
  checkpoints (fs w) !! env_name (self w).

(** The runner still has the configuration it was constructed with: no
    method writes [training_config] or [rl_config]. *)
Definition as_constructed (w : World) : Prop :=
  training_config (self w)
  = _create_training_config (args_debug (args (self w)))
                            (env_config_episode_length (self w))
  ∧ rl_config (training_state (self w))
    = config_dict_create (to_dict (training_config (self w))).

Definition example_args : Args :=
  {| args_env := "zbot"; args_task := "walking"; args_debug := true;
     args_save_model := true |}.

Definition empty_fs : FileSystem := {| cwd := ∅; checkpoints := ∅ |}.

(** A runner constructed in debug mode at time 0 on an empty disk, for an
    environment with episodes of 4 steps. *)
Definition fresh_world : World := __init__ example_args 4 empty_fs 0 [].

Definition example_metrics : gmap string Q :=
  <["eval/episode_reward" := 35 # 10]>
    (<["eval/episode_reward_std" := 2 # 10]> ∅).

Definition example_params : PyTree := TreeLeaves [1 # 2; 3 # 4].

(** A runner that holds a trained model: the new runner after one progress
    tick at step 5, with [example_params] as its parameters. *)
Definition trained_world : World :=
  let w := (progress_callback 5 example_metrics fresh_world).1 in
  {| self := set_training_state
               (set_params example_params (training_state (self w))) (self w);
     fs := fs w; clock := clock w; logs := logs w |}.

(** A trainer that never calls the progress function, and one that calls it
    once. *)
Definition silent_trainer (_ : pydict) (_ : NetworkFactory) : TrainerRun :=
  {| ticks := []; outcome := Ok example_params |}.
Definition one_tick_trainer (_ : pydict) (_ : NetworkFactory) : TrainerRun :=
  {| ticks := [(5, example_metrics)]; outcome := Ok example_params |}.

(** A stub environment: the reset gives a state of reward [reset_reward],
    every step a state of reward 1; a frame is blank. *)
Record StubState : Type := { stub_time : nat; stub_reward : Q }.

Definition stub_env (reset_reward : Q) : MjxEnv nat StubState unit :=
  {| reset := λ _, {| stub_time := 0; stub_reward := reset_reward |};
     step := λ s _, {| stub_time := S (stub_time s); stub_reward := 1 |};
     render_state := λ _ _ _ width height,
       {| frame_height := height; frame_width := width; frame_pixels := [] |};
     dt := 2 # 100;
     observation_size := 1;
     action_size := 1 |}.

Definition stub_split (key : nat) : nat * nat := (key, S key).

Definition stub_policy (_ : pydict) (_ _ : Z) (_ : PyTree) (_ : nat) (_ : nat)
  : unit := ().

(** [evaluate] with the stub environment. *)
Definition stub_evaluate (reset_reward : Q) : M unit :=
  evaluate (λ episode, episode) stub_split stub_time stub_reward stub_policy
           (stub_env reset_reward).

(** The lengths that C10 as stated expects after a call whose metrics lack
    ["eval/episode_reward"]: only [times] has grown. *)
Definition only_times_grown (num_steps : Z) (metrics : gmap string Q)
    (w : World) : Prop :=
  let w' := (progress_callback num_steps metrics w).1 in
  let ts := training_state (self w) in
  let ts' := training_state (self w') in
  (progress_callback num_steps metrics w).2
    = Raise (KeyError "eval/episode_reward")
  ∧ length (times ts') = S (length (times ts))
  ∧ x_data ts' = x_data ts
  ∧ y_data ts' = y_data ts
  ∧ y_dataerr ts' = y_dataerr ts.

(** The step that [load_model] restores: the one asked for, or the latest. *)
Definition requested_step (step : option Z) (d : CkptDir) : option Z :=
  match step with Some n => Some n | None => latest_step d end.

(** The requested checkpoint is not there: no directory, or no checkpoint at
    all when the latest is asked for, or none at the step asked for. *)
Definition checkpoint_unavailable (step : option Z) (w : World) : Prop :=
  match runner_dir w with
  | None => True
  | Some d =>
      match step with
      | Some n => ckpt_steps d !! n = None
      | None => ckpt_steps d = ∅
      end
  end.

(** Every [config_<step>.json] of the directory holds a JSON document. *)
Definition snapshots_readable (d : CkptDir) : Prop :=
  ∀ n f, ckpt_files d !! config_step_name n = Some f → ∃ j, f = FJson j.

(** The world with the file [name] of the runner's directory set to [o]
    ([None]: removed). *)
Definition set_ckpt_file (name : string) (o : option file) (w : World) : World :=
  {| self := self w;
     fs := update_dir (env_name (self w))
             (λ d, {| ckpt_steps := ckpt_steps d;
                      ckpt_files := partial_alter (λ _, o) name (ckpt_files d) |})
             (fs w);
     clock := clock w; logs := logs w |}.

(** The world after [load_model] restored [p] and logged [ls]. *)
Definition loaded (p : PyTree) (ls : list LogRecord) (w : World) : World :=
  {| self := set_training_state (set_params p (training_state (self w))) (self w);
     fs := fs w; clock := clock w; logs := logs w ++ ls |}.

(** The runner's directory after the checkpoint manager saved in it. *)
Definition saved_dir (w : World) : CkptDir :=
  let ts := training_state (self w) in
  manager_save 5 (save_step ts) (params ts) (default empty_dir (runner_dir w)).

(** The world after [save_model] wrote [f] as [config_<step>.json] and
    logged [ls]. *)
Definition saved (f : file) (ls : list LogRecord) (w : World) : World :=
  {| self := self w;
     fs := {| cwd := cwd (fs w);
              checkpoints :=
                <[env_name (self w) :=
                    write_in_dir
                      (config_step_name (save_step (training_state (self w))))
                      f (saved_dir w)]> (checkpoints (fs w)) |};
     clock := clock w; logs := logs w ++ ls |}.



(** C5 as stated: a save leaves [config.json], holding the current
    hyperparameters, in the runner's directory. *)
Definition save_leaves_config_json (w : World) : Prop :=
  ∀ w', save_model w = (w', Ok ()) →
    ∃ d j, runner_dir w' = Some d
           ∧ ckpt_files d !! "config.json" = Some (FJson j)
           ∧ json_encode (PDict (to_dict (training_config (self w)))) = Some j.

(** The training state after the appends that [progress_callback] makes
    before it reads the metrics, and the world it then raises in. *)
Definition after_clock (n : Z) (w : World) : TrainingState :=
  x_data_append n (times_append (clock w) (training_state (self w))).

Definition with_state (ts : TrainingState) (w : World) : World :=
  {| self := set_training_state ts (self w); fs := fs w;
     clock := clock w + 1; logs := logs w |}.

(** The keywords of the network factory that the configuration builder
    makes, as [rl_config] holds them. *)
Definition network_kwargs : pydict :=
  [ ("policy_hidden_layer_sizes", PTuple [PInt 512; PInt 256; PInt 128]);
    ("value_hidden_layer_sizes", PTuple [PInt 512; PInt 256; PInt 128]);
    ("policy_obs_key", PStr "state");
    ("value_obs_key", PStr "privileged_state") ].


(** The world after [evaluate] logged the reward [x] of episode 0. *)
Definition reward_logged (x : Q) (w : World) : World :=
  {| self := self w; fs := fs w; clock := clock w;
     logs := logs w ++ [LogEpisodeReward 0 x] |}.

(** The name [output_<episode_num>.mp4]. *)
Definition video_name (episode_num : nat) : string :=
  "output_" +:+ pretty episode_num +:+ ".mp4".

Section EpisodeObservations.
Context {Rng EnvState Obs Ctrl : Type}.
Variable PRNGKey : nat → Rng.
Variable split : Rng → Rng * Rng.
Variable obs : EnvState → Obs.
Variable reward : EnvState → Q.
Variable make_inference_fn : pydict → Z → Z → PyTree → Obs → Rng → Ctrl.
Variable eval_env : MjxEnv Rng EnvState Ctrl.

(** The total that [evaluate] logs for an episode: the float32 sum of the
    rewards of the rollout. *)
Definition episode_total (r : Runner) (kwargs : pydict) (episode : nat) : Q :=
  jnp_sum (jnp_array
             (map reward (episode_rollout PRNGKey split obs make_inference_fn
                            eval_env r kwargs episode))).

(** The video that [render_episode] writes for an episode: the frames of
    the rollout, with the size of the frame of the reset state. *)
Definition episode_video (r : Runner) (kwargs : pydict) (episode : nat)
    (fps : Q) : Video :=
  let rollout := episode_rollout PRNGKey split obs make_inference_fn eval_env
                   r kwargs episode in
  let frames := render eval_env rollout "track" scene_option (640 * 2) 480 in
  let f0 := render_state eval_env (reset eval_env (PRNGKey episode)) "track"
              scene_option (640 * 2) 480 in
  {| video_fps := fps;
     video_size := (frame_width f0, frame_height f0);
     video_frames := map cvtColor_RGB2BGR frames |}.

(** The records that [evaluate] logs for an episode with a video at
    [fps]. *)
Definition episode_records (r : Runner) (kwargs : pydict) (fps : Q)
    (episode : nat) : list LogRecord :=
  [LogEpisodeReward episode (episode_total r kwargs episode); LogFps fps].
End EpisodeObservations.

(** ** Further observations *)

(** What [__init__] sets up and the methods only read: the arguments, the
    environment name and episode length, and both forms of the
    hyperparameters. *)
Definition same_configuration (w w' : World) : Prop :=
  args (self w') = args (self w)
  ∧ env_name (self w') = env_name (self w)
  ∧ env_config_episode_length (self w') = env_config_episode_length (self w)
  ∧ training_config (self w') = training_config (self w)
  ∧ rl_config (training_state (self w')) = rl_config (training_state (self w)).

(** The method leaves every world in relation [R] with the world it ran
    in, whether it returns or raises. *)
Definition preserves {A} (R : World → World → Prop) (m : M A) : Prop :=
  ∀ w, R w (m w).1.

(** The number that a value stands for in arithmetic with a float. *)
Definition number_value (v : pyval) : option Q :=
  match v with
  | PInt n => Some (inject_Z n)
  | PFloat y => Some y
  | PBool b => Some (inject_Z (if b then 1 else 0))
  | _ => None
  end.

(** The four lists of the training state. *)
Definition same_samples (w w' : World) : Prop :=
  x_data (training_state (self w')) = x_data (training_state (self w))
  ∧ y_data (training_state (self w')) = y_data (training_state (self w))
  ∧ y_dataerr (training_state (self w')) = y_dataerr (training_state (self w))
  ∧ times (training_state (self w')) = times (training_state (self w)).

(** A trainer that raises before its first progress call. *)
Definition diverging_trainer (_ : pydict) (_ : NetworkFactory) : TrainerRun :=
  {| ticks := []; outcome := Raise (ExternalError "diverged") |}.

(** * Properties *)

(** ** Configuration builder *)

(** C2, as amended.  With the debug flag set, the number of minibatches, of
    updates per batch, of environments and the batch size are 1, 1, 1 and 2:
    each is 1 or 2 and strictly below its production value, which is 32, 4,
    32 and 256; the total number of timesteps is 5, strictly below its
    production value 500,000,000; the number of evals (15), the unroll
    length (20) and the number of resets per eval (1) do not depend on the
    debug flag. *)
Theorem debug_config_counts (env_episode_length : Z) :
  let dbg := _create_training_config true env_episode_length in
  let prod := _create_training_config false env_episode_length in
  debug_cheaper CF_num_minibatches env_episode_length
  ∧ debug_cheaper CF_num_updates_per_batch env_episode_length
  ∧ debug_cheaper CF_num_envs env_episode_length
  ∧ debug_cheaper CF_batch_size env_episode_length
  ∧ (num_minibatches dbg = 1 ∧ num_minibatches prod = 32)
  ∧ (num_updates_per_batch dbg = 1 ∧ num_updates_per_batch prod = 4)
  ∧ (num_envs dbg = 1 ∧ num_envs prod = 32)
  ∧ (batch_size dbg = 2 ∧ batch_size prod = 256)
  ∧ (num_timesteps dbg = 5 ∧ num_timesteps prod = 500000000
     ∧ num_timesteps dbg < num_timesteps prod)
  ∧ (num_evals dbg = 15 ∧ num_evals prod = 15)
  ∧ (unroll_length dbg = 20 ∧ unroll_length prod = 20)
  ∧ (num_resets_per_eval dbg = 1 ∧ num_resets_per_eval prod = 1).
Proof.
  unfold debug_cheaper, near_trivial; simpl.
  repeat split; try lia; auto.
Qed.

(** C2, as stated, fails for the number of evals: it is 15 with the debug
    flag set, neither 1 or 2 nor below the production value 15. *)
Lemma debug_cheaper_num_evals_fails : ¬ debug_cheaper CF_num_evals 1000.
Proof. unfold debug_cheaper; simpl. lia. Qed.

(** ** TrainingConfig.to_dict *)

Lemma dict_keys_dict_set_mem {A} (k : string) (v : A) (d : list (string * A)) :
  k ∈ dict_keys d → dict_keys (dict_set k v d) = dict_keys d.
Proof.
  unfold dict_keys. induction d as [|[k' v'] d IH]; simpl.
  - by intros ?%elem_of_nil.
  - intros Hin. destruct (decide (k = k')) as [->|Hne]; simpl; [done|].
    f_equal. apply IH. apply elem_of_cons in Hin as [?|?]; done.
Qed.




Lemma plain_to_plain (v : pyval) : plain (to_plain v) = true.
Proof.
  induction v as [| | | | |xs IH|xs IH|kvs IH|kvs IH] using pyval_nested_ind;
    simpl; try done.
  - induction IH; simpl; [done|]. by apply andb_true_iff.
  - induction IH; simpl; [done|]. by apply andb_true_iff.
  - induction IH as [|[k x] ? ? ?]; simpl in *; [done|]. by apply andb_true_iff.
  - induction IH as [|[k x] ? ? ?]; simpl in *; [done|]. by apply andb_true_iff.
Qed.

Lemma plain_ConfigDict_to_dict (kvs : pydict) :
  plain (PDict (ConfigDict_to_dict kvs)) = true.
Proof. exact (plain_to_plain (PConfig kvs)). Qed.

(** A value without ConfigDict objects is serializable. *)
Lemma json_encode_plain (v : pyval) : plain v = true → is_Some (json_encode v).
Proof.
  induction v as [| | | | |xs IH|xs IH|kvs IH|kvs IH] using pyval_nested_ind;
    simpl; try (intros; discriminate); try (intros; eexists; done).
  - intros Hp. apply fmap_is_Some, mapM_is_Some.
    induction IH; simpl in *; [done|].
    apply andb_true_iff in Hp as [? ?]. constructor; auto.
  - intros Hp. apply fmap_is_Some, mapM_is_Some.
    induction IH; simpl in *; [done|].
    apply andb_true_iff in Hp as [? ?]. constructor; auto.
  - intros Hp. apply fmap_is_Some, mapM_is_Some.
    induction IH as [|[k x] ? ? ?]; simpl in *; [done|].
    apply andb_true_iff in Hp as [? ?]. constructor; auto.
    simpl. apply fmap_is_Some. auto.
Qed.





Lemma to_dict_plain (c : TrainingConfig) (kvs : pydict) :
  network_factory c = PConfig kvs → plain (PDict (to_dict c)) = true.
Proof.
  intros Hnf. unfold to_dict. rewrite Hnf. simpl.
  rewrite !andb_true_r. apply plain_ConfigDict_to_dict.
Qed.

Lemma to_dict_serializable (c : TrainingConfig) (kvs : pydict) :
  network_factory c = PConfig kvs →
  ∃ j, json_encode (PDict (to_dict c)) = Some j.
Proof. intros Hnf. apply json_encode_plain, (to_dict_plain c kvs Hnf). Qed.


(** Without the conversion of the network factory the encoder would refuse
    the mapping: [asdict] alone keeps the ConfigDict object. *)
Lemma asdict_not_serializable (c : TrainingConfig) (kvs : pydict) :
  network_factory c = PConfig kvs → json_encode (PDict (asdict c)) = None.
Proof. intros Hnf. unfold asdict. rewrite Hnf. reflexivity. Qed.


(** ** Reasoning about methods *)

Ltac munfold :=
  unfold mbind, M_bind, mret, M_ret, raise, get_self, get_fs,
    modify_training_state, put_fs, logger_info, datetime_now, of_option,
    of_result, list_getitem in *.

Lemma py_index_last {A} (l : list A) (x : A) : py_index (l ++ [x]) (-1) = Some x.
Proof.
  unfold py_index. rewrite decide_False by lia.
  rewrite length_app. simpl. rewrite decide_True by lia.
  replace (length l + 1 - Z.to_nat (- -1))%nat with (length l + 0)%nat by lia.
  by rewrite lookup_app_r, Nat.add_0_r, Nat.sub_diag by lia.
Qed.

(** ** Progress reporter *)

(** Without the reward the call raises after [times] and [x_data] grew. *)
Lemma progress_callback_no_reward (n : Z) (m : gmap string Q) (w : World) :
  m !! "eval/episode_reward" = None →
  progress_callback n m w
  = (with_state (after_clock n w) w, Raise (KeyError "eval/episode_reward")).
Proof.
  intros Hr. unfold progress_callback. munfold. simpl. rewrite Hr. reflexivity.
Qed.

(** Without the standard deviation it raises after [y_data] grew too. *)
Lemma progress_callback_no_std (n : Z) (m : gmap string Q) (w : World) (r : Q) :
  m !! "eval/episode_reward" = Some r →
  m !! "eval/episode_reward_std" = None →
  progress_callback n m w
  = (with_state (y_data_append r (after_clock n w)) w,
     Raise (KeyError "eval/episode_reward_std")).
Proof.
  intros Hr Hs. unfold progress_callback. munfold. simpl. rewrite Hr. simpl.
  rewrite Hs. reflexivity.
Qed.

(** A call that returns found both metrics and appended to all four lists. *)
Lemma progress_callback_ok (n : Z) (m : gmap string Q) (w w' : World) :
  progress_callback n m w = (w', Ok ()) →
  ∃ r sd,
    m !! "eval/episode_reward" = Some r
    ∧ m !! "eval/episode_reward_std" = Some sd
    ∧ training_state (self w')
      = y_dataerr_append sd (y_data_append r (after_clock n w)).
Proof.
  unfold progress_callback. munfold. simpl.
  destruct (m !! "eval/episode_reward") as [r|] eqn:Hr; simpl; [|done].
  destruct (m !! "eval/episode_reward_std") as [sd|] eqn:Hs; simpl; [|done].
  destruct (dict_get "num_timesteps" _) as [v|] eqn:Hv; simpl; [|done].
  rewrite py_index_last.
  destruct v; simpl; try done; intros [= <-]; exists r, sd; done.
Qed.

(** With both metrics and a numeric total in [rl_config] the call returns. *)
Lemma progress_callback_returns (n : Z) (m : gmap string Q) (w : World)
    (r sd : Q) (total : Z) :
  m !! "eval/episode_reward" = Some r →
  m !! "eval/episode_reward_std" = Some sd →
  dict_get "num_timesteps" (rl_config (training_state (self w))) = Some (PInt total) →
  ∃ w', progress_callback n m w = (w', Ok ()).
Proof.
  intros Hr Hs Hv. unfold progress_callback. munfold. simpl.
  rewrite Hr. simpl. rewrite Hs. simpl. rewrite Hv. simpl.
  rewrite py_index_last. eexists. reflexivity.
Qed.

Lemma run_ticks_lengths (tk : list (Z * gmap string Q)) (w w' : World) :
  run_ticks tk w = (w', Ok ()) →
  lengths w'
  = let '(a, b, c, d) := lengths w in
    (a + length tk, b + length tk, c + length tk, d + length tk)%nat.
Proof.
  revert w. induction tk as [|[n m] tk IH]; intros w; simpl.
  - intros [= <-]. unfold lengths. by rewrite !Nat.add_0_r.
  - unfold mbind, M_bind.
    destruct (progress_callback n m w) as [w1 [[]|e]] eqn:Hpc; [|done].
    intros Hrun. apply IH in Hrun. rewrite Hrun.
    apply progress_callback_ok in Hpc as (r & sd & _ & _ & Hts).
    unfold lengths. rewrite Hts. simpl. rewrite !length_app. simpl.
    f_equal; [f_equal; [f_equal|]|]; lia.
Qed.

(** C1.  A new runner has empty [x_data], [y_data] and [y_dataerr] and one
    entry, the construction time, in [times]; a call of [progress_callback]
    that returns has appended exactly one entry to each of the four lists;
    so after [N] ticks that return the lengths are [N], [N], [N] and
    [N + 1]. *)
Theorem parallel_sequences_lengths (a : Args) (ep : Z) (s : FileSystem)
    (now : Z) (l : list LogRecord) :
  (let ts := training_state (self (__init__ a ep s now l)) in
   x_data ts = [] ∧ y_data ts = [] ∧ y_dataerr ts = [] ∧ times ts = [now])
  ∧ (∀ n m w w', progress_callback n m w = (w', Ok ()) →
       let ts := training_state (self w) in
       let ts' := training_state (self w') in
       ∃ r sd t,
         m !! "eval/episode_reward" = Some r
         ∧ m !! "eval/episode_reward_std" = Some sd
         ∧ x_data ts' = x_data ts ++ [n]
         ∧ y_data ts' = y_data ts ++ [r]
         ∧ y_dataerr ts' = y_dataerr ts ++ [sd]
         ∧ times ts' = times ts ++ [t])
  ∧ (∀ tk w', run_ticks tk (__init__ a ep s now l) = (w', Ok ()) →
       lengths w' = (length tk, length tk, length tk, S (length tk))).
Proof.
  split; [done|]. split.
  - intros n m w w' Hpc.
    apply progress_callback_ok in Hpc as (r & sd & Hr & Hs & ->).
    by exists r, sd, (clock w).
  - intros tk w' Hrun. by apply run_ticks_lengths in Hrun.
Qed.

Lemma parallel_sequences_lengths_witness :
  lengths (run_ticks [(5, example_metrics); (10, example_metrics)] fresh_world).1
  = (2, 2, 2, 3)%nat.
Proof.
  apply (proj2 (proj2 (parallel_sequences_lengths example_args 4 empty_fs 0 []))
           [(5, example_metrics); (10, example_metrics)]).
  vm_compute. reflexivity.
Defined.

(** From construction on, ticks whose metrics carry both keys all return:
    the lengths above are reached. *)
Lemma dict_get_config_dict_create_int (d : pydict) (k : string) (n : Z) :
  dict_get k d = Some (PInt n) →
  dict_get k (config_dict_create d) = Some (PInt n).
Proof.
  induction d as [|[k' v] d IH]; simpl; [done|].
  destruct (decide (k = k')); [by intros [= ->]|done].
Qed.

Lemma progress_callback_rl_config (n : Z) (m : gmap string Q) (w : World) :
  rl_config (training_state (self (progress_callback n m w).1))
  = rl_config (training_state (self w)).
Proof.
  unfold progress_callback. munfold. simpl.
  destruct (m !! "eval/episode_reward") as [r|]; simpl; [|done].
  destruct (m !! "eval/episode_reward_std") as [sd|]; simpl; [|done].
  destruct (dict_get "num_timesteps" _) as [v|]; simpl; [|done].
  rewrite py_index_last. by destruct v.
Qed.

Lemma run_ticks_returns (tk : list (Z * gmap string Q)) (w : World) (total : Z) :
  dict_get "num_timesteps" (rl_config (training_state (self w))) = Some (PInt total) →
  Forall (λ t, is_Some (t.2 !! "eval/episode_reward")
               ∧ is_Some (t.2 !! "eval/episode_reward_std")) tk →
  ∃ w', run_ticks tk w = (w', Ok ()).
Proof.
  intros Hv Htk. revert w Hv.
  induction Htk as [|[n m] tk [[r Hr] [sd Hs]] _ IH]; intros w Hv; simpl.
  - by eexists.
  - destruct (progress_callback_returns n m w r sd total Hr Hs Hv) as [w1 Hw1].
    unfold mbind, M_bind. rewrite Hw1. apply IH.
    pose proof (progress_callback_rl_config n m w) as Hrl.
    rewrite Hw1 in Hrl. simpl in Hrl. by rewrite Hrl.
Qed.

Lemma init_num_timesteps (a : Args) (ep : Z) (s : FileSystem) (now : Z)
    (l : list LogRecord) :
  ∃ total,
    dict_get "num_timesteps"
      (rl_config (training_state (self (__init__ a ep s now l))))
    = Some (PInt total).
Proof. eexists. reflexivity. Qed.

(** C10, as amended.  A call whose metrics lack ["eval/episode_reward"]
    raises the key error after both [times] and [x_data] have grown by one
    entry, [y_data] and [y_dataerr] being as before; a call whose metrics
    lack only ["eval/episode_reward_std"] raises after [times], [x_data] and
    [y_data] have grown, [y_dataerr] being as before.  In both cases the
    lists no longer have the lengths that belong together. *)
Theorem progress_callback_partial_update (n : Z) (m : gmap string Q) (w : World) :
  let ts := training_state (self w) in
  let ts' := training_state (self (progress_callback n m w).1) in
  (m !! "eval/episode_reward" = None →
     (progress_callback n m w).2 = Raise (KeyError "eval/episode_reward")
     ∧ times ts' = times ts ++ [clock w]
     ∧ x_data ts' = x_data ts ++ [n]
     ∧ y_data ts' = y_data ts
     ∧ y_dataerr ts' = y_dataerr ts)
  ∧ (∀ r, m !! "eval/episode_reward" = Some r →
          m !! "eval/episode_reward_std" = None →
     (progress_callback n m w).2 = Raise (KeyError "eval/episode_reward_std")
     ∧ times ts' = times ts ++ [clock w]
     ∧ x_data ts' = x_data ts ++ [n]
     ∧ y_data ts' = y_data ts ++ [r]
     ∧ y_dataerr ts' = y_dataerr ts).
Proof.
  split.
  - intros Hr. by rewrite (progress_callback_no_reward n m w Hr).
  - intros r Hr Hs. by rewrite (progress_callback_no_std n m w r Hr Hs).
Qed.

Lemma progress_callback_partial_update_witness :
  lengths (progress_callback 5 ∅ fresh_world).1 = (1, 0, 0, 2)%nat
  ∧ lengths (progress_callback 5 {["eval/episode_reward" := 1%Q]} fresh_world).1
    = (1, 1, 0, 2)%nat.
Proof.
  pose proof (progress_callback_partial_update 5 ∅ fresh_world) as [H1 _].
  pose proof (progress_callback_partial_update 5
                {["eval/episode_reward" := 1%Q]} fresh_world) as [_ H2].
  specialize (H1 eq_refl). specialize (H2 1%Q eq_refl eq_refl).
  destruct H1 as (_ & Ht1 & Hx1 & Hy1 & He1).
  destruct H2 as (_ & Ht2 & Hx2 & Hy2 & He2).
  unfold lengths. rewrite Ht1, Hx1, Hy1, He1, Ht2, Hx2, Hy2, He2.
  split; reflexivity.
Defined.

(** C10, as stated, fails on a new runner and empty metrics: [x_data] has
    grown as well. *)
Lemma only_times_grown_fails : ¬ only_times_grown 5 ∅ fresh_world.
Proof.
  unfold only_times_grown. intros (_ & _ & Hx & _).
  rewrite (progress_callback_no_reward 5 ∅ fresh_world (lookup_empty _)) in Hx.
  discriminate Hx.
Qed.

(** ** Training orchestrator *)

Lemma py_index_1_of_one {A} (l : list A) : length l = 1%nat → py_index l 1 = None.
Proof. destruct l as [|x [|y l]]; simpl; intros; try done; lia. Qed.

(** When the trainer makes no tick, [train] reaches the reading of
    [times[1]] in the world it started in. *)
Lemma train_no_tick (ppo_train : pydict → NetworkFactory → TrainerRun)
    (w : World) (nf : NetworkFactory) (kw : pydict) (p : PyTree) :
  length (times (training_state (self w))) = 1%nat →
  training_arguments (rl_config (training_state (self w))) = Ok (nf, kw) →
  ticks (ppo_train kw nf) = [] →
  outcome (ppo_train kw nf) = Ok p →
  train ppo_train w = (w, Raise IndexError).
Proof.
  intros Hlen Hargs Htk Hout. unfold train. munfold. simpl.
  rewrite Hargs. simpl. rewrite Htk. simpl. rewrite Hout. simpl.
  by rewrite (py_index_1_of_one _ Hlen).
Qed.

(** C9.  On a runner whose [times] still holds its single construction-time
    entry, [train] raises the index error, in the world it started in, when
    the trainer returns parameters without having called the progress
    function; and if [train] returns, the trainer has called the progress
    function at least once. *)
Theorem train_needs_a_tick (ppo_train : pydict → NetworkFactory → TrainerRun)
    (w : World) :
  length (times (training_state (self w))) = 1%nat →
  (∀ nf kw p,
     training_arguments (rl_config (training_state (self w))) = Ok (nf, kw) →
     ticks (ppo_train kw nf) = [] →
     outcome (ppo_train kw nf) = Ok p →
     train ppo_train w = (w, Raise IndexError))
  ∧ (∀ w', train ppo_train w = (w', Ok ()) →
       ∃ nf kw,
         training_arguments (rl_config (training_state (self w))) = Ok (nf, kw)
         ∧ ticks (ppo_train kw nf) ≠ []).
Proof.
  intros Hlen. split.
  - intros nf kw p. by apply train_no_tick.
  - intros w' Htrain.
    destruct (training_arguments (rl_config (training_state (self w))))
      as [[nf kw]|e] eqn:Hargs.
    + exists nf, kw. split; [done|]. intros Htk.
      destruct (outcome (ppo_train kw nf)) as [p|e] eqn:Hout.
      * by rewrite (train_no_tick ppo_train w nf kw p Hlen Hargs Htk Hout) in Htrain.
      * revert Htrain. unfold train. munfold. simpl.
        rewrite Hargs. simpl. rewrite Htk. simpl. by rewrite Hout.
    + revert Htrain. unfold train. munfold. simpl. by rewrite Hargs.
Qed.

Lemma train_needs_a_tick_witness :
  train silent_trainer fresh_world = (fresh_world, Raise IndexError).
Proof.
  apply (proj1 (train_needs_a_tick silent_trainer fresh_world eq_refl)
           (make_ppo_networks_with
              [ ("policy_hidden_layer_sizes", PTuple [PInt 512; PInt 256; PInt 128]);
                ("value_hidden_layer_sizes", PTuple [PInt 512; PInt 256; PInt 128]);
                ("policy_obs_key", PStr "state");
                ("value_obs_key", PStr "privileged_state") ])
           (dict_del "network_factory"
              (rl_config (training_state (self fresh_world))))
           example_params);
    reflexivity.
Defined.

(** With one tick the same call returns, having saved the model. *)
Lemma train_one_tick_returns :
  (train one_tick_trainer fresh_world).2 = Ok ().
Proof. vm_compute. reflexivity. Qed.

(** ** Checkpoint manager *)

Lemma elem_of_all_steps (d : CkptDir) (k : Z) :
  k ∈ all_steps d ↔ is_Some (ckpt_steps d !! k).
Proof.
  unfold all_steps. rewrite merge_sort_Permutation, elem_of_elements.
  apply elem_of_dom.
Qed.

Lemma NoDup_all_steps (d : CkptDir) : NoDup (all_steps d).
Proof.
  unfold all_steps. rewrite merge_sort_Permutation. apply NoDup_elements.
Qed.

Lemma StronglySorted_all_steps (d : CkptDir) : StronglySorted Z.le (all_steps d).
Proof. apply (StronglySorted_merge_sort _). Qed.

Lemma length_all_steps (d : CkptDir) :
  length (all_steps d) = size (ckpt_steps d).
Proof.
  unfold all_steps. rewrite merge_sort_Permutation.
  rewrite <- size_dom. reflexivity.
Qed.

Lemma all_steps_nil (d : CkptDir) : all_steps d = [] ↔ ckpt_steps d = ∅.
Proof.
  rewrite <- map_size_empty_iff, <- length_all_steps.
  split; [by intros ->|]. by destruct (all_steps d).
Qed.

Lemma latest_step_None (d : CkptDir) :
  latest_step d = None ↔ ckpt_steps d = ∅.
Proof. unfold latest_step. rewrite last_None. apply all_steps_nil. Qed.

(** The latest step is on disk and no step on disk is higher. *)
Lemma latest_step_Some (d : CkptDir) (n : Z) :
  latest_step d = Some n →
  is_Some (ckpt_steps d !! n)
  ∧ ∀ k, is_Some (ckpt_steps d !! k) → k ≤ n.
Proof.
  unfold latest_step. intros (l' & Hl)%last_Some. split.
  - apply elem_of_all_steps. rewrite Hl. set_solver.
  - intros k Hk%elem_of_all_steps.
    pose proof (StronglySorted_all_steps d) as Hs. rewrite Hl in Hs, Hk.
    apply elem_of_app in Hk as [Hk|Hk].
    + eapply (StronglySorted_app_1_elem_of _ _ _ _ _ Hs Hk). set_solver.
    + apply list_elem_of_singleton in Hk as ->. lia.
Qed.

Lemma latest_step_is_Some (d : CkptDir) :
  ckpt_steps d ≠ ∅ → is_Some (latest_step d).
Proof.
  intros Hne. destruct (latest_step d) eqn:Hl; [by eexists|].
  by apply latest_step_None in Hl.
Qed.

(** After the sweep the steps on disk are the last [max_to_keep] of the
    sorted steps. *)
Lemma all_steps_retention_sweep (n : nat) (d : CkptDir) :
  all_steps (retention_sweep n d)
  = drop (length (all_steps d) - n) (all_steps d).
Proof.
  pose proof (NoDup_all_steps d) as Hnd.
  pose proof (StronglySorted_all_steps d) as Hs.
  set (c := (length (all_steps d) - n)%nat) in *.
  rewrite <- (take_drop c (all_steps d)) in Hnd, Hs.
  apply (StronglySorted_unique Z.le).
  - apply StronglySorted_all_steps.
  - by apply StronglySorted_app_1_r in Hs.
  - apply NoDup_app in Hnd as (_ & Hdisj & Hnd).
    apply NoDup_Permutation; [apply NoDup_all_steps|done|].
    intros k. rewrite elem_of_all_steps. unfold retention_sweep, steps_to_remove.
    simpl. fold c. unfold is_Some.
    setoid_rewrite lookup_foldr_delete_Some. split.
    + intros (p & Hk & Hp).
      assert (k ∈ all_steps d) as Hin by (apply elem_of_all_steps; eauto).
      rewrite <- (take_drop c (all_steps d)) in Hin.
      apply elem_of_app in Hin as [?|?]; done.
    + intros Hk.
      assert (k ∈ all_steps d) as Hin.
      { rewrite <- (take_drop c (all_steps d)). set_solver. }
      apply elem_of_all_steps in Hin as [p Hp]. exists p. split; [|done].
      intros Hk'. by apply (Hdisj _ Hk').
Qed.

Lemma retention_sweep_size (n : nat) (d : CkptDir) :
  size (ckpt_steps (retention_sweep n d)) = min n (size (ckpt_steps d)).
Proof.
  rewrite <- !length_all_steps, all_steps_retention_sweep, length_drop. lia.
Qed.



(** The sweep keeps the latest step. *)
Lemma latest_step_retention_sweep (n : nat) (d : CkptDir) :
  (0 < n)%nat → latest_step (retention_sweep n d) = latest_step d.
Proof.
  intros Hn. unfold latest_step. rewrite all_steps_retention_sweep.
  destruct (all_steps d) as [|x l] eqn:Hl using rev_ind; [done|].
  clear IHl. rewrite length_app. simpl.
  rewrite drop_app_le by lia. by rewrite !last_snoc.
Qed.






Lemma manager_save_nonempty (n : nat) (step : Z) (item : PyTree) (d : CkptDir) :
  (0 < n)%nat → ckpt_steps (manager_save n step item d) ≠ ∅.
Proof.
  intros Hn Hempty. apply map_size_empty_iff in Hempty.
  unfold manager_save in Hempty. rewrite retention_sweep_size in Hempty.
  assert (size (ckpt_steps (write_step step item d)) ≠ 0%nat).
  { rewrite map_size_empty_iff. simpl. apply insert_non_empty. }
  lia.
Qed.

Lemma manager_save_files (n : nat) (step : Z) (item : PyTree) (d : CkptDir) :
  ckpt_files (manager_save n step item d) = ckpt_files d.
Proof. reflexivity. Qed.

(** ** Checkpoint store: save *)

Lemma alter_mkdir (dir : string) (f : CkptDir → CkptDir) (s : FileSystem) :
  alter f dir (checkpoints (mkdir dir s))
  = <[dir := f (default empty_dir (checkpoints s !! dir))]> (checkpoints s).
Proof.
  unfold mkdir. destruct (checkpoints s !! dir) as [d|] eqn:Hd; simpl.
  - apply map_eq. intros k. rewrite lookup_alter, lookup_insert.
    destruct (decide (dir = k)) as [->|]; [by rewrite Hd|done].
  - by rewrite alter_insert_eq.
Qed.

Lemma cwd_mkdir (dir : string) (s : FileSystem) : cwd (mkdir dir s) = cwd s.
Proof. unfold mkdir. by destruct (checkpoints s !! dir). Qed.

(** What [save_model] does, by whether the hyperparameters serialize. *)
Lemma save_model_unfold (w : World) :
  let step := save_step (training_state (self w)) in
  let config := to_dict (training_config (self w)) in
  save_model w
  = match json_encode (PDict config) with
    | Some j =>
        (saved (FJson j)
               [LogRLConfig config; LogModelSaved step (env_name (self w))] w,
         Ok ())
    | None => (saved (FBytes "") [LogRLConfig config] w, Raise TypeError)
    end.
Proof.
  unfold save_model, _get_rl_config_dict, json_dump_to, saved, saved_dir,
    runner_dir, update_dir.
  munfold. cbn -[json_encode].
  rewrite !cwd_mkdir, alter_mkdir.
  destruct (json_encode (PDict (to_dict (training_config (self w)))))
    as [j|]; cbn -[json_encode].
  - by rewrite alter_insert_eq, <- app_assoc.
  - by rewrite alter_insert_eq.
Qed.

Lemma runner_dir_saved (f : file) (ls : list LogRecord) (w : World) :
  runner_dir (saved f ls w)
  = Some (write_in_dir (config_step_name (save_step (training_state (self w))))
                       f (saved_dir w)).
Proof. unfold runner_dir, saved. simpl. apply lookup_insert_eq. Qed.



Lemma config_json_not_step (n : Z) : config_step_name n ≠ "config.json".
Proof. unfold config_step_name. simpl. discriminate. Qed.






Lemma _save_rl_config_dict_unfold (path : string) (w : World) :
  let d0 := default empty_dir (runner_dir w) in
  let at_config f :=
    {| self := self w;
       fs := {| cwd := cwd (fs w);
                checkpoints :=
                  <[env_name (self w) := write_in_dir "config.json" f d0]>
                    (checkpoints (fs w)) |};
       clock := clock w; logs := logs w |} in
  _save_rl_config_dict path w
  = match json_encode (PDict (to_dict (training_config (self w)))) with
    | Some j => (at_config (FJson j), Ok ())
    | None => (at_config (FBytes ""), Raise TypeError)
    end.
Proof.
  unfold _save_rl_config_dict, json_dump_to, runner_dir, update_dir.
  munfold. cbn -[json_encode].
  rewrite !cwd_mkdir, alter_mkdir.
  destruct (json_encode (PDict (to_dict (training_config (self w)))))
    as [j|]; cbn -[json_encode]; by rewrite ?alter_mkdir.
Qed.

(** Whatever [save_model] does, the files of the directory other than
    [config_<step>.json] are as they were. *)
Lemma save_model_other_files (w : World) (name : string) :
  name ≠ config_step_name (save_step (training_state (self w))) →
  ∃ d, runner_dir (save_model w).1 = Some d
       ∧ ckpt_files d !! name
         = ckpt_files (default empty_dir (runner_dir w)) !! name.
Proof.
  intros Hne. pose proof (save_model_unfold w) as Hsave. cbv zeta in Hsave.
  rewrite Hsave.
  destruct (json_encode (PDict (to_dict (training_config (self w)))));
    simpl; rewrite runner_dir_saved; eexists; (split; [done|]);
    simpl; by rewrite lookup_insert_ne.
Qed.

Lemma save_model_keeps_config_json_aux (w : World) :
  ∃ d, runner_dir (save_model w).1 = Some d
       ∧ ckpt_files d !! "config.json"
         = ckpt_files (default empty_dir (runner_dir w)) !! "config.json".
Proof.
  apply save_model_other_files. intros H. symmetry in H.
  by apply config_json_not_step in H.
Qed.

(** C5, as amended.  [save_model] leaves [config.json] of
    [checkpoints/<env_name>] as it was, absent if it was absent, and, on a
    runner that holds parameters, returns having written
    [config_<step>.json] only; [config.json] is written, whatever it held
    before, with the current hyperparameters by [_save_rl_config_dict],
    which [save_model] does not call. *)
Theorem save_model_keeps_config_json (w : World) :
  (∃ d, runner_dir (save_model w).1 = Some d
        ∧ ckpt_files d !! "config.json"
          = ckpt_files (default empty_dir (runner_dir w)) !! "config.json")
  ∧ (∀ j, json_encode (PDict (to_dict (training_config (self w)))) = Some j →
       (params (training_state (self w)) ≠ TreeNone →
        ∃ d, runner_dir (save_model w).1 = Some d
             ∧ (save_model w).2 = Ok ()
             ∧ ckpt_files d !! config_step_name (save_step (training_state (self w)))
               = Some (FJson j))
       ∧ (∀ path, ∃ d,
            runner_dir (_save_rl_config_dict path w).1 = Some d
            ∧ (_save_rl_config_dict path w).2 = Ok ()
            ∧ ckpt_files d !! "config.json" = Some (FJson j))).
Proof.
  split; [apply save_model_keeps_config_json_aux|].
  intros j Hj. split.
  - intros _. pose proof (save_model_unfold w) as Hsave. cbv zeta in Hsave.
    rewrite Hsave, Hj. cbn -[json_encode]. rewrite runner_dir_saved.
    eexists. split; [done|]. split; [done|]. apply lookup_insert_eq.
  - intros path.
    pose proof (_save_rl_config_dict_unfold path w) as Hsave.
    cbv zeta in Hsave. rewrite Hsave, Hj. unfold runner_dir at 1.
    cbn -[json_encode]. rewrite lookup_insert_eq.
    eexists. split; [done|]. split; [done|]. apply lookup_insert_eq.
Qed.

(** C5, as stated, fails on a runner that holds trained parameters, on a
    disk without [config.json]: the save returns and there is no
    [config.json]. *)
Lemma save_leaves_config_json_fails : ¬ save_leaves_config_json trained_world.
Proof.
  intros H.
  destruct (to_dict_serializable (training_config (self trained_world))
              network_kwargs eq_refl) as [j Hj].
  pose proof (save_model_unfold trained_world) as Hsave. cbv zeta in Hsave.
  rewrite Hj in Hsave.
  destruct (H _ Hsave) as (d & j' & Hd & Hf & _).
  destruct (save_model_keeps_config_json_aux trained_world) as (d' & Hd' & Hf').
  rewrite Hsave in Hd'. cbn [fst] in Hd'.
  rewrite Hd in Hd'. injection Hd' as <-. rewrite Hf in Hf'. discriminate Hf'.
Qed.

Lemma save_model_keeps_config_json_witness :
  ∃ d, runner_dir (save_model trained_world).1 = Some d
       ∧ (save_model trained_world).2 = Ok ()
       ∧ ckpt_files d !! "config.json" = None
       ∧ is_Some (ckpt_files d !! "config_5.json").
Proof.
  destruct (to_dict_serializable (training_config (self trained_world))
              network_kwargs eq_refl) as [j Hj].
  destruct (save_model_keeps_config_json trained_world)
    as ((d & Hd & Hconfig) & Hwrites).
  destruct (Hwrites j Hj) as (Hstep & _).
  destruct Hstep as (d' & Hd' & Hok & Hstep); [discriminate|].
  rewrite Hd in Hd'. injection Hd' as <-.
  exists d. split; [done|]. split; [done|]. split; [|by eexists].
  rewrite Hconfig. reflexivity.
Defined.

(** ** Checkpoint store: load *)

Lemma load_model_unfold (step : option Z) (w : World) :
  load_model step w
  = match runner_dir w with
    | None => (w, Raise (FileNotFoundError "Checkpoint directory not found"))
    | Some d =>
        match requested_step step d with
        | None => (w, Raise (FileNotFoundError "No checkpoints found"))
        | Some n =>
            match ckpt_steps d !! n with
            | None => (w, Raise (FileNotFoundError "checkpoint step not found"))
            | Some p =>
                match ckpt_files d !! config_step_name n with
                | None => (loaded p [LogModelLoaded n] w, Ok ())
                | Some (FJson j) =>
                    (loaded p [LogLoadedConfiguration (config_step_name n);
                               LogModelLoaded n] w, Ok ())
                | Some _ => (loaded p [] w, Raise JSONDecodeError)
                end
            end
        end
    end.
Proof.
  unfold load_model, runner_dir, manager_restore, json_load. munfold. simpl.
  destruct (checkpoints (fs w) !! env_name (self w)) as [d|]; [|done].
  destruct step as [n|]; simpl.
  - destruct (ckpt_steps d !! n) as [p|]; simpl; [|done].
    unfold loaded.
    destruct (ckpt_files d !! config_step_name n) as [[]|]; simpl;
      rewrite <- ?app_assoc, ?app_nil_r; done.
  - destruct (latest_step d) as [n|]; simpl; [|done].
    destruct (ckpt_steps d !! n) as [p|]; simpl; [|done].
    unfold loaded.
    destruct (ckpt_files d !! config_step_name n) as [[]|]; simpl;
      rewrite <- ?app_assoc, ?app_nil_r; done.
Qed.


(** A save that returns leaves a directory with a checkpoint and readable
    snapshots, when the snapshots were readable before. *)
Lemma save_model_establishes (w0 w : World) :
  save_model w0 = (w, Ok ()) →
  snapshots_readable (default empty_dir (runner_dir w0)) →
  ∃ d, runner_dir w = Some d ∧ ckpt_steps d ≠ ∅ ∧ snapshots_readable d.
Proof.
  intros Hsave Hread.
  pose proof (save_model_unfold w0) as Hs. cbv zeta in Hs. rewrite Hs in Hsave.
  destruct (json_encode (PDict (to_dict (training_config (self w0)))))
    as [j|]; [|done].
  injection Hsave as <-. rewrite runner_dir_saved. eexists. split; [done|]. split.
  - apply (manager_save_nonempty 5). lia.
  - intros n f. simpl.
    destruct (decide (config_step_name (save_step (training_state (self w0)))
                      = config_step_name n)) as [->|Hne].
    + rewrite lookup_insert_eq. intros [= <-]. by eexists.
    + rewrite lookup_insert_ne by done. apply Hread.
Qed.

Lemma snapshots_readable_empty : snapshots_readable empty_dir.
Proof. intros n f. simpl. by rewrite lookup_empty. Qed.

Lemma load_model_latest (w : World) (d : CkptDir) :
  runner_dir w = Some d → ckpt_steps d ≠ ∅ → snapshots_readable d →
  ∃ n p,
    ckpt_steps d !! n = Some p
    ∧ (∀ k, is_Some (ckpt_steps d !! k) → k ≤ n)
    ∧ (load_model None w).2 = Ok ()
    ∧ params (training_state (self (load_model None w).1)) = p.
Proof.
  intros Hdir Hne Hread.
  destruct (latest_step_is_Some d Hne) as [n Hl].
  destruct (latest_step_Some d n Hl) as [[p Hp] Hmax].
  exists n, p. split; [done|]. split; [done|].
  rewrite load_model_unfold, Hdir. simpl. rewrite Hl, Hp.
  destruct (ckpt_files d !! config_step_name n) as [f|] eqn:Hf; [|done].
  destruct (Hread n f Hf) as [j ->]. done.
Qed.

(** C3.  [load_model] raises the "not found" condition exactly when the
    requested checkpoint is unavailable, and then leaves the world as it
    was: when the directory does not exist, when the latest step is asked
    for and there is no checkpoint, and when a step is asked for that is not
    on disk.  Asked for the latest step in a directory that holds a
    checkpoint and readable snapshots, as the directory does after a save
    that returned, it returns and [params] is the checkpoint of the highest
    step on disk. *)
Theorem load_model_not_found (step : option Z) (w : World) :
  (is_not_found (load_model step w).2 = true ↔ checkpoint_unavailable step w)
  ∧ (checkpoint_unavailable step w → (load_model step w).1 = w)
  ∧ (runner_dir w = None → is_not_found (load_model step w).2 = true)
  ∧ (∀ d, runner_dir w = Some d → ckpt_steps d = ∅ →
          is_not_found (load_model None w).2 = true)
  ∧ (∀ d n, runner_dir w = Some d → ckpt_steps d !! n = None →
            is_not_found (load_model (Some n) w).2 = true)
  ∧ (∀ d, runner_dir w = Some d → ckpt_steps d ≠ ∅ → snapshots_readable d →
          ∃ n p,
            ckpt_steps d !! n = Some p
            ∧ (∀ k, is_Some (ckpt_steps d !! k) → k ≤ n)
            ∧ (load_model None w).2 = Ok ()
            ∧ params (training_state (self (load_model None w).1)) = p)
  ∧ (∀ w0, save_model w0 = (w, Ok ()) →
           snapshots_readable (default empty_dir (runner_dir w0)) →
           ∃ d n p,
             runner_dir w = Some d
             ∧ ckpt_steps d !! n = Some p
             ∧ (∀ k, is_Some (ckpt_steps d !! k) → k ≤ n)
             ∧ (load_model None w).2 = Ok ()
             ∧ params (training_state (self (load_model None w).1)) = p).
Proof.
  assert (Hiff : ∀ st, is_not_found (load_model st w).2 = true
                       ↔ checkpoint_unavailable st w).
  { intros st. rewrite load_model_unfold. unfold checkpoint_unavailable.
    destruct (runner_dir w) as [d|]; [|done].
    destruct st as [n|]; simpl.
    - destruct (ckpt_steps d !! n) as [p|]; [|done].
      by destruct (ckpt_files d !! config_step_name n) as [[]|].
    - rewrite <- latest_step_None.
      destruct (latest_step d) as [n|] eqn:Hl; [|done].
      destruct (latest_step_Some d n Hl) as [[p Hp] _]. rewrite Hp.
      by destruct (ckpt_files d !! config_step_name n) as [[]|]. }
  split; [apply Hiff|]. repeat split.
  - rewrite load_model_unfold. unfold checkpoint_unavailable.
    destruct (runner_dir w) as [d|]; [|done].
    destruct step as [n|]; simpl.
    + by intros ->.
    + intros Hd%latest_step_None. by rewrite Hd.
  - intros Hdir. apply Hiff. unfold checkpoint_unavailable. by rewrite Hdir.
  - intros d Hdir Hd. apply Hiff. unfold checkpoint_unavailable. by rewrite Hdir.
  - intros d n Hdir Hn. apply Hiff. unfold checkpoint_unavailable. by rewrite Hdir.
  - intros d. apply load_model_latest.
  - intros w0 Hsave Hread.
    destruct (save_model_establishes w0 w Hsave Hread) as (d & Hdir & Hne & Hr).
    destruct (load_model_latest w d Hdir Hne Hr) as (n & p & H).
    by exists d, n, p.
Qed.

Lemma load_model_not_found_witness :
  is_not_found (load_model None fresh_world).2 = true
  ∧ is_not_found (load_model (Some 7) (save_model fresh_world).1).2 = true
  ∧ (load_model None (save_model fresh_world).1).2 = Ok ().
Proof.
  split; [|split].
  - apply (load_model_not_found None fresh_world). reflexivity.
  - destruct (load_model_not_found (Some 7) (save_model fresh_world).1)
      as (_ & _ & _ & _ & H & _).
    eapply H; vm_compute; reflexivity.
  - destruct (load_model_not_found None (save_model fresh_world).1)
      as (_ & _ & _ & _ & _ & _ & H).
    destruct (H fresh_world) as (d & n & p & Hd & Hp & _ & Hok & Hparams).
    + vm_compute. reflexivity.
    + apply snapshots_readable_empty.
    + exact Hok.
Defined.

(** ** Checkpoint store: the snapshot at load *)

Lemma runner_dir_set_ckpt_file (name : string) (o : option file) (w : World) :
  runner_dir (set_ckpt_file name o w)
  = (λ d, {| ckpt_steps := ckpt_steps d;
             ckpt_files := partial_alter (λ _, o) name (ckpt_files d) |})
    <$> runner_dir w.
Proof. unfold runner_dir, set_ckpt_file, update_dir. simpl. apply lookup_alter_eq. Qed.

(** C8.  When the checkpoint is there and [config_<step>.json] is not,
    [load_model] returns, having restored the parameters and logged the
    load only; when the snapshot is there it is read and that is logged as
    well; and setting any file of the directory to anything, or removing
    it, changes neither the training state that [load_model] leaves nor
    whether it raises "not found". *)
Theorem load_model_snapshot_optional (step : option Z) (w : World) :
  (∀ d n p, runner_dir w = Some d → requested_step step d = Some n →
            ckpt_steps d !! n = Some p →
            ckpt_files d !! config_step_name n = None →
            load_model step w = (loaded p [LogModelLoaded n] w, Ok ()))
  ∧ (∀ d n p j, runner_dir w = Some d → requested_step step d = Some n →
                ckpt_steps d !! n = Some p →
                ckpt_files d !! config_step_name n = Some (FJson j) →
                load_model step w
                = (loaded p [LogLoadedConfiguration (config_step_name n);
                             LogModelLoaded n] w, Ok ()))
  ∧ (∀ name o,
       training_state (self (load_model step (set_ckpt_file name o w)).1)
       = training_state (self (load_model step w).1)
       ∧ is_not_found (load_model step (set_ckpt_file name o w)).2
         = is_not_found (load_model step w).2).
Proof.
  split; [|split].
  - intros d n p Hdir Hreq Hp Hf.
    by rewrite load_model_unfold, Hdir, Hreq, Hp, Hf.
  - intros d n p j Hdir Hreq Hp Hf.
    by rewrite load_model_unfold, Hdir, Hreq, Hp, Hf.
  - intros name o. rewrite !load_model_unfold, runner_dir_set_ckpt_file.
    destruct (runner_dir w) as [d|]; simpl; [|done].
    assert (Hreq : requested_step step
                     {| ckpt_steps := ckpt_steps d;
                        ckpt_files := partial_alter (λ _, o) name (ckpt_files d) |}
                   = requested_step step d) by (by destruct step).
    rewrite Hreq.
    destruct (requested_step step d) as [n|]; [|done].
    destruct (ckpt_steps d !! n) as [p|]; [|done].
    destruct (partial_alter (λ _, o) name (ckpt_files d) !! config_step_name n)
      as [[]|];
      destruct (ckpt_files d !! config_step_name n) as [[]|]; done.
Qed.

Lemma load_model_snapshot_optional_witness :
  (load_model None (save_model fresh_world).1).2 = Ok ()
  ∧ load_model None (set_ckpt_file "config_0.json" None (save_model fresh_world).1)
    = (loaded TreeNone [LogModelLoaded 0]
         (set_ckpt_file "config_0.json" None (save_model fresh_world).1), Ok ()).
Proof.
  split; [vm_compute; reflexivity|].
  eapply (proj1 (load_model_snapshot_optional None
                   (set_ckpt_file "config_0.json" None (save_model fresh_world).1))).
  - vm_compute. reflexivity.
  - vm_compute. reflexivity.
  - vm_compute. reflexivity.
  - vm_compute. reflexivity.
Defined.

(** ** Evaluator *)

Lemma as_constructed_network_factory (w : World) :
  as_constructed w →
  dict_get "network_factory" (rl_config (training_state (self w)))
  = Some (PConfig network_kwargs)
  ∧ num_resets_per_eval (training_config (self w)) = 1.
Proof.
  intros [Hcfg Hrl]. rewrite Hrl, Hcfg.
  by destruct (args_debug (args (self w))).
Qed.


(** *** float32 sums of whole numbers *)

Lemma f32_round_proper (x y : Q) : (x == y)%Q → f32_round x = f32_round y.
Proof. intros H. unfold f32_round. by rewrite (Qred_complete x y H). Qed.

Lemma Qred_inject_Z (z : Z) : Qred (inject_Z z) = inject_Z z.
Proof.
  pose proof (Qred_correct (inject_Z z)) as Hc.
  pose proof (gcd_Qred (inject_Z z)) as Hg.
  destruct (Qred (inject_Z z)) as [n d]. unfold Qeq in Hc. simpl in Hc, Hg.
  rewrite Z.mul_1_r in Hc. subst n.
  rewrite Z.gcd_comm, Z.mul_comm, Z.gcd_mul_diag_l in Hg by lia.
  injection Hg as ->. unfold inject_Z. f_equal. lia.
Qed.

Lemma round_half_even_1 (n : Z) : round_half_even n 1 = n.
Proof.
  unfold round_half_even. cbv zeta. rewrite Z.div_1_r, Z.mod_1_r.
  by rewrite decide_True by lia.
Qed.

(** A whole number below [2 ^ 24] in magnitude is a float32. *)
Lemma f32_round_Z (z : Z) :
  Z.abs z < 2 ^ 24 → f32_round (inject_Z z) = inject_Z z.
Proof.
  intros Hz. unfold f32_round. rewrite Qred_inject_Z. cbv zeta.
  change (Qnum (inject_Z z)) with z.
  change (Z.pos (Qden (inject_Z z))) with 1.
  destruct (decide (Z.abs z = 0)) as [H0|H0].
  { replace z with 0 by lia. done. }
  change (Z.log2 1) with 0. rewrite Z.sub_0_r.
  pose proof (Z.log2_nonneg (Z.abs z)) as Hnn.
  destruct (Z.log2_spec (Z.abs z)) as [Hlo Hhi]; [lia|].
  assert (Hlt : Z.log2 (Z.abs z) < 24) by (apply Z.log2_lt_pow2; lia).
  unfold scale2 at 1. rewrite decide_True by done.
  rewrite decide_True by lia.
  assert (Hsgn : Z.sgn z * Z.abs z = z) by (rewrite Z.mul_comm; apply Z.abs_sgn).
  unfold scale2, times_pow2.
  destruct (decide (0 ≤ Z.log2 (Z.abs z) - 23)) as [Hk|Hk];
    cbv beta iota zeta;
    (transitivity (Qred (inject_Z z)); [|apply Qred_inject_Z]);
    apply Qred_complete.
  - replace (Z.log2 (Z.abs z) - 23) with 0 by lia.
    rewrite Z.pow_0_r, !Z.mul_1_r, round_half_even_1, Hsgn. reflexivity.
  - rewrite round_half_even_1. unfold Qeq. simpl.
    rewrite Z2Pos.id by (apply Z.pow_pos_nonneg; lia).
    rewrite Z.mul_1_r, Z.mul_assoc, Hsgn. reflexivity.
Qed.

Lemma f32_add_Z (a b : Z) :
  Z.abs (a + b) < 2 ^ 24 → f32_add (inject_Z a) (inject_Z b) = inject_Z (a + b).
Proof.
  intros Hab. unfold f32_add.
  rewrite (f32_round_proper _ (inject_Z (a + b)))
    by (by rewrite inject_Z_plus).
  by apply f32_round_Z.
Qed.

Lemma foldl_f32_add_ones (a : Z) (k : nat) :
  Z.abs a + Z.of_nat k < 2 ^ 24 →
  foldl f32_add (inject_Z a) (repeat 1%Q k) = inject_Z (a + Z.of_nat k).
Proof.
  revert a. induction k as [|k IH]; intros a Ha; simpl.
  - f_equal. lia.
  - change (f32_add (inject_Z a) 1) with (f32_add (inject_Z a) (inject_Z 1)).
    rewrite f32_add_Z by lia. rewrite IH by lia. f_equal. lia.
Qed.

Lemma jnp_array_ones (xs : list Q) :
  Forall (λ x, (x == 1)%Q) xs → jnp_array xs = repeat 1%Q (length xs).
Proof.
  induction 1 as [|x xs Hx _ IH]; simpl; [done|]. f_equal; [|done].
  by rewrite (f32_round_proper x 1).
Qed.

(** The float32 sum of a whole number and ones is exact below [2 ^ 24]. *)
Lemma jnp_sum_whole_and_ones (r0 : Q) (z : Z) (xs : list Q) :
  (r0 == inject_Z z)%Q → Forall (λ x, (x == 1)%Q) xs →
  Z.abs z + Z.of_nat (length xs) < 2 ^ 24 →
  jnp_sum (jnp_array (r0 :: xs)) = inject_Z (z + Z.of_nat (length xs)).
Proof.
  intros Hr0 Hxs Hz. unfold jnp_sum. simpl.
  rewrite (jnp_array_ones xs Hxs), (f32_round_proper r0 _ Hr0).
  rewrite f32_round_Z by lia.
  change (f32_add 0 (inject_Z z)) with (f32_add (inject_Z 0) (inject_Z z)).
  rewrite f32_add_Z by (simpl; lia). by apply foldl_f32_add_ones.
Qed.

(** *** The names of the videos *)

Lemma string_length_app (s t : string) :
  String.length (s +:+ t) = (String.length s + String.length t)%nat.
Proof. induction s as [|a s IH]; simpl; [done|]. by rewrite IH. Qed.

Lemma string_app_inj_r (s1 s2 t : string) : s1 +:+ t = s2 +:+ t → s1 = s2.
Proof.
  revert s2. induction s1 as [|a s1 IH]; intros [|b s2] H; simpl in H.
  - done.
  - apply (f_equal String.length) in H.
    rewrite !string_length_app in H. simpl in H. lia.
  - apply (f_equal String.length) in H.
    rewrite !string_length_app in H. simpl in H. lia.
  - injection H as -> H. f_equal. by apply IH.
Qed.

Lemma video_name_inj (i j : nat) : video_name i = video_name j → i = j.
Proof.
  unfold video_name. intros H. apply (inj (String.app "output_")) in H.
  apply string_app_inj_r in H. by apply (inj pretty) in H.
Qed.

(** The files after one video per episode of [l] has been written. *)
Lemma lookup_videos_ne (g : nat → file) (l : list nat) (c : gmap string file)
    (name : string) :
  (∀ i, i ∈ l → name ≠ video_name i) →
  foldl (λ c i, <[video_name i := g i]> c) c l !! name = c !! name.
Proof.
  revert c. induction l as [|j l IH]; intros c Hname; simpl; [done|].
  rewrite IH by (intros i Hi; apply Hname; by right).
  apply lookup_insert_ne. intros Heq. by apply (Hname j); [left|].
Qed.

Lemma lookup_videos (g : nat → file) (l : list nat) (c : gmap string file)
    (i : nat) :
  NoDup l → i ∈ l →
  foldl (λ c i, <[video_name i := g i]> c) c l !! video_name i = Some (g i).
Proof.
  revert c. induction l as [|j l IH]; intros c Hnd Hin; simpl.
  - by apply elem_of_nil in Hin.
  - apply NoDup_cons in Hnd as [Hj Hnd].
    destruct (decide (i ∈ l)) as [Hl|Hl]; [by apply IH|].
    apply elem_of_cons in Hin as [->|?]; [|done].
    rewrite lookup_videos_ne; [apply lookup_insert_eq|].
    intros k Hk Heq. apply video_name_inj in Heq as ->. done.
Qed.

Section EvaluateProperties.
Context {Rng EnvState Obs Ctrl : Type}.
Variable PRNGKey : nat → Rng.
Variable split : Rng → Rng * Rng.
Variable obs : EnvState → Obs.
Variable reward : EnvState → Q.
Variable make_inference_fn : pydict → Z → Z → PyTree → Obs → Rng → Ctrl.
Variable eval_env : MjxEnv Rng EnvState Ctrl.

Lemma length_run_episode (f : Obs → Rng → Ctrl) (n : nat) (s : EnvState)
    (rng : Rng) :
  length (run_episode split obs eval_env f n s rng) = n.
Proof.
  revert s rng. induction n as [|n IH]; intros s rng; simpl; [done|].
  destruct (split rng). simpl. by rewrite IH.
Qed.

(** Every state after the first of a rollout comes from a step. *)
Lemma run_episode_rewards (f : Obs → Rng → Ctrl) (n : nat) (s : EnvState)
    (rng : Rng) :
  (∀ s c, (reward (step eval_env s c) == 1)%Q) →
  Forall (λ x, (x == 1)%Q) (map reward (run_episode split obs eval_env f n s rng)).
Proof.
  intros Hone. revert s rng. induction n as [|n IH]; intros s rng; simpl.
  - constructor.
  - destruct (split rng). simpl. constructor; [apply Hone|apply IH].
Qed.

(** [evaluate] is its loop over the episodes once the keywords of the
    network factory are read. *)
Lemma evaluate_as_loop (w : World) (nf : pyval) (kwargs : pydict) :
  dict_get "network_factory" (rl_config (training_state (self w))) = Some nf →
  nf = PDict kwargs ∨ nf = PConfig kwargs →
  evaluate PRNGKey split obs reward make_inference_fn eval_env w
  = for_range 0 (Z.to_nat (num_resets_per_eval (training_config (self w))))
      (λ episode,
         logger_info
           (LogEpisodeReward episode
              (episode_total PRNGKey split obs reward make_inference_fn
                 eval_env (self w) kwargs episode));;
         render_episode eval_env
           (episode_rollout PRNGKey split obs make_inference_fn eval_env
              (self w) kwargs episode) episode) w.
Proof.
  intros Hnf Hkw. unfold evaluate. munfold. simpl. rewrite Hnf. simpl.
  by destruct Hkw as [-> | ->].
Qed.

(** One pass of the loop, for a timestep other than 0. *)
Lemma evaluate_episode (r : Runner) (kwargs : pydict) (episode : nat)
    (w : World) :
  Qeq_bool (dt eval_env) 0 = false →
  (logger_info
     (LogEpisodeReward episode
        (episode_total PRNGKey split obs reward make_inference_fn
           eval_env r kwargs episode));;
   render_episode eval_env
     (episode_rollout PRNGKey split obs make_inference_fn eval_env
        r kwargs episode) episode) w
  = ({| self := self w;
        fs := write_cwd (video_name episode)
                (FVideo (episode_video PRNGKey split obs make_inference_fn
                           eval_env r kwargs episode (1 / dt eval_env / 1)))
                (fs w);
        clock := clock w;
        logs := logs w
                ++ episode_records PRNGKey split obs reward make_inference_fn
                     eval_env r kwargs (1 / dt eval_env / 1) episode |},
     Ok ()).
Proof.
  intros Hdt. unfold render_episode, float_div, save_video. munfold.
  rewrite Hdt. simpl. by rewrite <- app_assoc.
Qed.

(** The loop over [n] episodes from [start], for a timestep other than
    0. *)
Lemma evaluate_loop (r : Runner) (kwargs : pydict) (n start : nat) (w : World) :
  Qeq_bool (dt eval_env) 0 = false →
  for_range start n
    (λ episode,
       logger_info
         (LogEpisodeReward episode
            (episode_total PRNGKey split obs reward make_inference_fn
               eval_env r kwargs episode));;
       render_episode eval_env
         (episode_rollout PRNGKey split obs make_inference_fn eval_env
            r kwargs episode) episode) w
  = ({| self := self w;
        fs := {| cwd :=
                   foldl (λ c i,
                            <[video_name i :=
                                FVideo (episode_video PRNGKey split obs
                                          make_inference_fn eval_env r kwargs i
                                          (1 / dt eval_env / 1))]> c)
                         (cwd (fs w)) (seq start n);
                 checkpoints := checkpoints (fs w) |};
        clock := clock w;
        logs := logs w
                ++ flat_map
                     (episode_records PRNGKey split obs reward
                        make_inference_fn eval_env r kwargs
                        (1 / dt eval_env / 1))
                     (seq start n) |},
     Ok ()).
Proof.
  intros Hdt. revert start w. induction n as [|n IH]; intros start w.
  - simpl. rewrite app_nil_r. by destruct w as [? [] ? ?].
  - cbn [for_range seq foldl flat_map].
    pose proof (evaluate_episode r kwargs start w Hdt) as Hbody.
    unfold mbind at 1. unfold M_bind at 1. rewrite Hbody.
    rewrite IH. simpl. by rewrite <- app_assoc.
Qed.

Lemma reported_rewards_episode_records (r : Runner) (kwargs : pydict)
    (fps : Q) (l : list nat) :
  reported_rewards
    (flat_map (episode_records PRNGKey split obs reward make_inference_fn
                 eval_env r kwargs fps) l)
  = map (episode_total PRNGKey split obs reward make_inference_fn eval_env
           r kwargs) l.
Proof. induction l as [|i l IH]; simpl; [done|]. by f_equal. Qed.

(** C7, as amended.  On a runner that holds parameters and whose
    hyperparameters hold the keywords of the network factory, [evaluate]
    runs [num_resets_per_eval] episodes, numbered from 0.  The rollout of
    an episode is the state after the reset followed by one state per step;
    its total is the float32 sum of the rewards of the rollout.  With a
    timestep other than 0 the call returns, having logged for every episode
    in turn its total and the frame rate, and [output_<i>.mp4] holds for
    every episode [i] a frame per state of its rollout; no other file of
    the working directory and no checkpoint is touched.  With a timestep of
    0 it raises ZeroDivisionError after logging the total of episode 0.
    With steps of reward 1 and episodes of 4 steps the total of an episode
    is the reward of its reset state plus 4, when that reward is a whole
    number of magnitude below [2 ^ 24 - 4]: 4 when the reset state has
    reward 0. *)
Theorem evaluate_episode_reward (w : World) (nf : pyval) (kwargs : pydict) :
  dict_get "network_factory" (rl_config (training_state (self w))) = Some nf →
  nf = PDict kwargs ∨ nf = PConfig kwargs →
  params (training_state (self w)) ≠ TreeNone →
  let n := Z.to_nat (num_resets_per_eval (training_config (self w))) in
  let rollout :=
    episode_rollout PRNGKey split obs make_inference_fn eval_env (self w)
      kwargs in
  let total i := jnp_sum (jnp_array (map reward (rollout i))) in
  let fps := (1 / dt eval_env / 1)%Q in
  let result := evaluate PRNGKey split obs reward make_inference_fn eval_env w in
  (∀ i, ∃ rest,
      rollout i = reset eval_env (PRNGKey i) :: rest
      ∧ length rest = Z.to_nat (env_config_episode_length (self w)))
  ∧ (¬ (dt eval_env == 0)%Q →
     result.2 = Ok ()
     ∧ logs result.1
       = logs w ++ flat_map (λ i, [LogEpisodeReward i (total i); LogFps fps])
                            (seq 0 n)
     ∧ reported_rewards (logs result.1)
       = reported_rewards (logs w) ++ map total (seq 0 n)
     ∧ checkpoints (fs result.1) = checkpoints (fs w)
     ∧ (∀ i, (i < n)%nat →
          ∃ v, cwd (fs result.1) !! video_name i = Some (FVideo v)
               ∧ video_fps v = fps
               ∧ length (video_frames v) = length (rollout i))
     ∧ (∀ name, (∀ i, (i < n)%nat → name ≠ video_name i) →
          cwd (fs result.1) !! name = cwd (fs w) !! name))
  ∧ ((dt eval_env == 0)%Q → (0 < n)%nat →
     result = (reward_logged (total 0%nat) w, Raise ZeroDivisionError))
  ∧ ((∀ s c, (reward (step eval_env s c) == 1)%Q) →
     env_config_episode_length (self w) = 4 →
     (∀ i z, (reward (reset eval_env (PRNGKey i)) == inject_Z z)%Q →
             Z.abs z + 4 < 2 ^ 24 →
             total i = inject_Z (z + 4))
     ∧ (∀ i, (reward (reset eval_env (PRNGKey i)) == 0)%Q → total i = 4%Q)).
Proof.
  intros Hnf Hkw _ n rollout total fps result.
  assert (Hroll : ∀ i, ∃ rest,
             rollout i = reset eval_env (PRNGKey i) :: rest
             ∧ length rest = Z.to_nat (env_config_episode_length (self w))).
  { intros i. eexists. split; [reflexivity|]. apply length_run_episode. }
  assert (Hsum : (∀ s c, (reward (step eval_env s c) == 1)%Q) →
                 env_config_episode_length (self w) = 4 →
                 ∀ i z, (reward (reset eval_env (PRNGKey i)) == inject_Z z)%Q →
                        Z.abs z + 4 < 2 ^ 24 →
                        total i = inject_Z (z + 4)).
  { intros Hone Hep i z Hz Hbound. unfold total, rollout, episode_rollout.
    cbn [map]. unfold video_eval_env.
    rewrite (jnp_sum_whole_and_ones _ z); [| done | by apply run_episode_rewards |];
      rewrite length_map, length_run_episode, Hep; [done|].
    change (Z.of_nat (Z.to_nat 4)) with 4. lia. }
  split; [done|]. split; [|split].
  - intros Hdt.
    assert (Hz : Qeq_bool (dt eval_env) 0 = false).
    { destruct (Qeq_bool (dt eval_env) 0) eqn:Hz; [|done].
      by apply Qeq_bool_eq in Hz. }
    unfold result. rewrite (evaluate_as_loop w nf kwargs Hnf Hkw).
    rewrite (evaluate_loop (self w) kwargs _ 0 w Hz). simpl.
    split; [done|]. split; [done|]. split.
    { unfold reported_rewards at 1. rewrite omap_app.
      fold (reported_rewards (logs w)). f_equal.
      apply reported_rewards_episode_records. }
    split; [done|]. split.
    + intros i Hi. eexists. split; [|split].
      * apply (lookup_videos (λ i, FVideo _)); [apply NoDup_seq|].
        apply elem_of_seq. lia.
      * done.
      * simpl. unfold render. by rewrite !length_map.
    + intros name Hname. apply lookup_videos_ne.
      intros i Hi%elem_of_seq. apply Hname. lia.
  - intros Hdt Hn.
    assert (Hz : Qeq_bool (dt eval_env) 0 = true) by (by apply Qeq_eq_bool).
    unfold result. rewrite (evaluate_as_loop w nf kwargs Hnf Hkw).
    fold n. destruct n as [|n']; [lia|].
    cbn [for_range]. unfold render_episode, float_div. munfold.
    rewrite Hz. reflexivity.
  - intros Hone Hep. split; [by apply Hsum|].
    intros i H0. by apply (Hsum Hone Hep i 0).
Qed.
End EvaluateProperties.

Lemma evaluate_episode_reward_witness :
  ∃ x, reported_rewards (logs (stub_evaluate 0 trained_world).1) = [x]
       ∧ x = 4%Q
       ∧ (stub_evaluate 0 trained_world).2 = Ok ()
       ∧ is_Some (cwd (fs (stub_evaluate 0 trained_world).1) !! "output_0.mp4").
Proof.
  pose proof (evaluate_episode_reward (λ episode, episode) stub_split
                stub_time stub_reward stub_policy (stub_env 0) trained_world
                (PConfig network_kwargs) network_kwargs eq_refl
                (or_intror eq_refl))
    as Hev.
  destruct Hev as (_ & Hok & _ & Hsum); [discriminate|].
  destruct Hok as (Hres & _ & Hrep & _ & Hvideo & _); [by intros H|].
  destruct Hsum as [_ Hfour]; [by intros|done|].
  destruct (Hvideo 0%nat) as (v & Hv & _); [vm_compute; lia|].
  eexists. split; [|split; [|split]].
  - unfold stub_evaluate. rewrite Hrep. reflexivity.
  - by apply Hfour.
  - exact Hres.
  - by eexists.
Defined.

(** C7, as stated, fails for the stub environment whose reset state has
    reward 1, on a runner that holds trained parameters: the reward
    reported is 5. *)
Lemma reported_reward_is_four_fails :
  ¬ reported_reward_is_four (λ episode, episode) stub_split stub_time
      stub_reward stub_policy (stub_env 1) trained_world.
Proof.
  intros H. destruct H as (x & Hx & H4); [by intros|done|].
  vm_compute in Hx. injection Hx as <-. by vm_compute in H4.
Qed.

(** * Further properties *)

(** ** Progress reporter: when it returns and what it writes *)

Lemma times_float_number (v : pyval) (x : Q) (w : World) :
  times_float v x w
  = match number_value v with
    | Some q => (w, Ok (q * x)%Q)
    | None => (w, Raise TypeError)
    end.
Proof. by destruct v as [| |?|?|?|?|?|?|?]. Qed.

(** What [progress_callback] does once both metrics are there. *)
Lemma progress_callback_with_metrics (n : Z) (m : gmap string Q) (w : World)
    (r sd : Q) :
  m !! "eval/episode_reward" = Some r →
  m !! "eval/episode_reward_std" = Some sd →
  let ts := y_dataerr_append sd (y_data_append r (after_clock n w)) in
  progress_callback n m w
  = match dict_get "num_timesteps" (rl_config (training_state (self w))) with
    | None => (with_state ts w, Raise (KeyError "num_timesteps"))
    | Some v =>
        match number_value v with
        | None => (with_state ts w, Raise TypeError)
        | Some total =>
            ({| self := set_training_state ts (self w);
                fs := write_cwd "plot.png"
                        (FPlot {| plot_xlim := (0%Q, (total * (125 # 100))%Q);
                                  plot_title := r;
                                  plot_x := x_data ts; plot_y := y_data ts;
                                  plot_yerr := y_dataerr ts |}) (fs w);
                clock := clock w + 1; logs := logs w |}, Ok ())
        end
    end.
Proof.
  intros Hr Hs. unfold progress_callback. munfold. simpl.
  rewrite Hr. simpl. rewrite Hs. simpl.
  destruct (dict_get "num_timesteps" _) as [v|]; simpl; [|done].
  rewrite times_float_number.
  destruct (number_value v) as [total|]; simpl; [|done].
  by rewrite py_index_last.
Qed.

(** Whatever it does, [progress_callback] leaves the checkpoints, the log
    and the parameters, and reads the clock once. *)
Lemma progress_callback_frame (n : Z) (m : gmap string Q) (w : World) :
  let w' := (progress_callback n m w).1 in
  checkpoints (fs w') = checkpoints (fs w)
  ∧ logs w' = logs w
  ∧ params (training_state (self w')) = params (training_state (self w))
  ∧ clock w' = clock w + 1.
Proof.
  destruct (m !! "eval/episode_reward") as [r|] eqn:Hr.
  2: { by rewrite (progress_callback_no_reward n m w Hr). }
  destruct (m !! "eval/episode_reward_std") as [sd|] eqn:Hs.
  2: { by rewrite (progress_callback_no_std n m w r Hr Hs). }
  rewrite (progress_callback_with_metrics n m w r sd Hr Hs).
  destruct (dict_get "num_timesteps" _) as [v|]; simpl; [|done].
  by destruct (number_value v).
Qed.


(** X2.  A call that returns has written [plot.png], and nothing else: the
    figure has the x-axis from 0 to 1.25 times [rl_config["num_timesteps"]],
    the reward just reported as title, and the whole of the three lists,
    the new entries included, as series.  A call that raises has written no
    file. *)
Theorem progress_callback_plot (n : Z) (m : gmap string Q) (w : World) :
  let w' := (progress_callback n m w).1 in
  let ts' := training_state (self w') in
  (is_ok (progress_callback n m w).2 = false → fs w' = fs w)
  ∧ ((progress_callback n m w).2 = Ok () →
     checkpoints (fs w') = checkpoints (fs w)
     ∧ ∃ v total r,
         dict_get "num_timesteps" (rl_config (training_state (self w))) = Some v
         ∧ number_value v = Some total
         ∧ m !! "eval/episode_reward" = Some r
         ∧ cwd (fs w')
           = <["plot.png" :=
                 FPlot {| plot_xlim := (0%Q, (total * (125 # 100))%Q);
                          plot_title := r;
                          plot_x := x_data ts'; plot_y := y_data ts';
                          plot_yerr := y_dataerr ts' |}]> (cwd (fs w))).
Proof.
  destruct (m !! "eval/episode_reward") as [r|] eqn:Hr.
  2: { rewrite (progress_callback_no_reward n m w Hr). simpl.
       repeat split; done. }
  destruct (m !! "eval/episode_reward_std") as [sd|] eqn:Hs.
  2: { rewrite (progress_callback_no_std n m w r Hr Hs). simpl.
       repeat split; done. }
  rewrite (progress_callback_with_metrics n m w r sd Hr Hs).
  destruct (dict_get "num_timesteps" _) as [v|]; simpl.
  - destruct (number_value v) as [total|] eqn:Hv; simpl.
    + split; [done|]. intros _. split; [done|]. by exists v, total, r.
    + repeat split; done.
  - repeat split; done.
Qed.

Lemma progress_callback_plot_witness :
  ∃ p, cwd (fs (progress_callback 5 example_metrics fresh_world).1) !! "plot.png"
       = Some (FPlot p)
       ∧ plot_x p = [5] ∧ plot_title p = (35 # 10)%Q.
Proof.
  destruct (progress_callback_plot 5 example_metrics fresh_world) as (_ & H).
  destruct H as (_ & v & total & r & Hv & Ht & Hr & Hcwd); [by vm_compute|].
  eexists. rewrite Hcwd, lookup_insert_eq. split; [done|]. simpl.
  split; [by vm_compute|]. vm_compute in Hr. by injection Hr as <-.
Defined.




(** ** What the methods leave alone *)

#[local] Instance same_configuration_refl : Reflexive same_configuration.
Proof. by intros w. Qed.

#[local] Instance same_configuration_trans : Transitive same_configuration.
Proof.
  intros w1 w2 w3 (?&?&?&?&?) (?&?&?&?&?). unfold same_configuration.
  repeat split; congruence.
Qed.

Section preserves.
Context (R : World → World → Prop) `{!Reflexive R, !Transitive R}.

Lemma preserves_bind {A B} (m : M A) (f : A → M B) :
  preserves R m → (∀ a, preserves R (f a)) → preserves R (m ≫= f).
Proof.
  intros Hm Hf w. specialize (Hm w). unfold mbind, M_bind.
  destruct (m w) as [w1 [a|e]]; simpl in *; [|done].
  by trans w1; [|apply Hf].
Qed.

Lemma preserves_ret {A} (a : A) : preserves R (mret a).
Proof. by intros w. Qed.

Lemma preserves_raise {A} (e : exn) : preserves R (raise e : M A).
Proof. by intros w. Qed.

Lemma preserves_get_self : preserves R get_self.
Proof. by intros w. Qed.

Lemma preserves_get_fs : preserves R get_fs.
Proof. by intros w. Qed.

Lemma preserves_of_option {A} (e : exn) (o : option A) : preserves R (of_option e o).
Proof. destruct o; [apply preserves_ret|apply preserves_raise]. Qed.

Lemma preserves_of_result {A} (r : result A) : preserves R (of_result r).
Proof. destruct r; [apply preserves_ret|apply preserves_raise]. Qed.

Lemma preserves_list_getitem {A} (l : list A) (i : Z) : preserves R (list_getitem l i).
Proof. apply preserves_of_option. Qed.

Lemma preserves_for_range (start n : nat) (body : nat → M unit) :
  (∀ i, preserves R (body i)) → preserves R (for_range start n body).
Proof.
  intros Hbody. revert start. induction n as [|n IH]; intros start; simpl.
  - apply preserves_ret.
  - apply preserves_bind; [apply Hbody|]. intros _. apply IH.
Qed.
End preserves.

Lemma keeps_put_fs (s : FileSystem) : preserves same_configuration (put_fs s).
Proof. by intros w. Qed.

Lemma keeps_logger_info (r : LogRecord) : preserves same_configuration (logger_info r).
Proof. by intros w. Qed.

Lemma keeps_datetime_now : preserves same_configuration datetime_now.
Proof. by intros w. Qed.

Lemma keeps_modify_training_state (f : TrainingState → TrainingState) :
  (∀ ts, rl_config (f ts) = rl_config ts) →
  preserves same_configuration (modify_training_state f).
Proof. intros Hf w. unfold same_configuration. simpl. by rewrite Hf. Qed.

Ltac keeps :=
  repeat first
    [ apply (preserves_ret same_configuration)
    | apply (preserves_raise same_configuration)
    | apply (preserves_get_self same_configuration)
    | apply (preserves_get_fs same_configuration)
    | apply (preserves_of_option same_configuration)
    | apply (preserves_of_result same_configuration)
    | apply (preserves_list_getitem same_configuration)
    | apply keeps_put_fs
    | apply keeps_logger_info
    | apply keeps_datetime_now
    | apply keeps_modify_training_state; by intros []
    | apply (preserves_bind same_configuration); [|intros ?]
    | match goal with
      | |- preserves _ (match ?x with _ => _ end) => destruct x
      end ].

Lemma keeps_json_dump_to (dir name : string) (obj : pyval) :
  preserves same_configuration (json_dump_to dir name obj).
Proof. unfold json_dump_to. keeps. Qed.

Lemma keeps_progress_callback (n : Z) (m : gmap string Q) :
  preserves same_configuration (progress_callback n m).
Proof. unfold progress_callback, times_float. keeps. Qed.

Lemma keeps_save_model : preserves same_configuration save_model.
Proof. unfold save_model, _get_rl_config_dict. keeps. Qed.

Lemma keeps_load_model (step : option Z) :
  preserves same_configuration (load_model step).
Proof. unfold load_model, manager_restore, json_load. keeps. Qed.

Lemma keeps_run_ticks (tk : list (Z * gmap string Q)) :
  preserves same_configuration (run_ticks tk).
Proof.
  induction tk as [|[n m] tk IH]; simpl;
    [apply (preserves_ret same_configuration)|].
  apply (preserves_bind same_configuration); [apply keeps_progress_callback|].
  by intros _.
Qed.

Lemma keeps_train (ppo_train : pydict → NetworkFactory → TrainerRun) :
  preserves same_configuration (train ppo_train).
Proof.
  unfold train. keeps; try apply keeps_run_ticks; try apply keeps_save_model.
Qed.

Lemma keeps_save_video (frames : list Frame) (fps : Q) (filename : string) :
  preserves same_configuration (save_video frames fps filename).
Proof. unfold save_video. keeps. Qed.

(** X4.  No method writes the configuration of the runner: after
    [progress_callback], [save_model], [load_model], [_save_rl_config_dict],
    [train] and [evaluate], returned or raised, the arguments, the
    environment name and episode length, [training_config] and
    [training_state.rl_config] are what they were.  In particular
    [load_model] does not take over the hyperparameters of the snapshot it
    reads. *)
Theorem configuration_never_written :
  (∀ n m, preserves same_configuration (progress_callback n m))
  ∧ preserves same_configuration save_model
  ∧ (∀ step, preserves same_configuration (load_model step))
  ∧ (∀ path, preserves same_configuration (_save_rl_config_dict path))
  ∧ (∀ ppo_train, preserves same_configuration (train ppo_train))
  ∧ (∀ (Rng EnvState Obs Ctrl : Type) (PRNGKey : nat → Rng)
       (split : Rng → Rng * Rng) (obs : EnvState → Obs) (reward : EnvState → Q)
       (make_inference_fn : pydict → Z → Z → PyTree → Obs → Rng → Ctrl)
       (eval_env : MjxEnv Rng EnvState Ctrl),
       preserves same_configuration
         (evaluate PRNGKey split obs reward make_inference_fn eval_env)).
Proof.
  split; [apply keeps_progress_callback|]. split; [apply keeps_save_model|].
  split; [apply keeps_load_model|]. split; [|split; [apply keeps_train|]].
  - intros path. unfold _save_rl_config_dict. keeps.
  - intros. unfold evaluate, as_mapping. keeps.
    all: apply (preserves_for_range same_configuration); intros i.
    all: unfold render_episode, float_div; keeps; try apply keeps_save_video.
Qed.

Lemma as_constructed_preserved (w w' : World) :
  same_configuration w w' → as_constructed w → as_constructed w'.
Proof.
  intros (Ha & _ & Hep & Hcfg & Hrl) [H1 H2]. unfold as_constructed.
  by rewrite Hcfg, Hrl, Ha, Hep.
Qed.

(** ** Checkpoint store: what load and save touch *)

(** X5.  [load_model] only reads the disk: the file system, the clock and
    the four lists are as before, whatever it returns or raises; and the
    parameters it leaves are the ones it found, or a checkpoint of the
    runner's directory. *)
Theorem load_model_reads_only (step : option Z) (w : World) :
  let w' := (load_model step w).1 in
  fs w' = fs w
  ∧ clock w' = clock w
  ∧ same_samples w w'
  ∧ (params (training_state (self w')) = params (training_state (self w))
     ∨ ∃ d n, runner_dir w = Some d
              ∧ requested_step step d = Some n
              ∧ ckpt_steps d !! n = Some (params (training_state (self w')))).
Proof.
  rewrite load_model_unfold.
  destruct (runner_dir w) as [d|]; [|by repeat split; auto].
  destruct (requested_step step d) as [n|] eqn:Hn; [|by repeat split; auto].
  destruct (ckpt_steps d !! n) as [p|] eqn:Hp; [|by repeat split; auto].
  destruct (ckpt_files d !! config_step_name n) as [[]|]; simpl;
    (split; [done|]; split; [done|]; split; [done|]; right; by exists d, n).
Qed.



(** ** Training orchestrator: ticks, failures and the save *)

(** Ticks only write [plot.png]; the checkpoints, the log and the
    parameters stay. *)
Lemma run_ticks_frame (tk : list (Z * gmap string Q)) (w : World) :
  let w' := (run_ticks tk w).1 in
  checkpoints (fs w') = checkpoints (fs w)
  ∧ logs w' = logs w
  ∧ params (training_state (self w')) = params (training_state (self w)).
Proof.
  revert w. induction tk as [|[n m] tk IH]; intros w; simpl; [done|].
  unfold mbind, M_bind.
  destruct (progress_callback_frame n m w) as (Hc & Hl & Hp & _).
  destruct (progress_callback n m w) as [w1 [[]|e]]; simpl in *; [|done].
  destruct (IH w1) as (Hc' & Hl' & Hp'). repeat split; congruence.
Qed.

(** Ticks that return have recorded their step counts, in order. *)
Lemma run_ticks_x_data (tk : list (Z * gmap string Q)) (w w' : World) :
  run_ticks tk w = (w', Ok ()) →
  x_data (training_state (self w')) = x_data (training_state (self w)) ++ tk.*1
  ∧ length (times (training_state (self w')))
    = (length (times (training_state (self w))) + length tk)%nat.
Proof.
  revert w. induction tk as [|[n m] tk IH]; intros w; simpl.
  - intros [= <-]. by rewrite app_nil_r, Nat.add_0_r.
  - unfold mbind, M_bind.
    destruct (progress_callback n m w) as [w1 [[]|e]] eqn:Hpc; [|done].
    intros [Hx Ht]%IH.
    apply progress_callback_ok in Hpc as (r & sd & _ & _ & Hts).
    rewrite Hx, Ht, Hts. simpl. rewrite <- app_assoc, length_app. simpl.
    split; [done|lia].
Qed.

Lemma py_index_two {A} (l : list A) :
  (2 ≤ length l)%nat →
  ∃ a b c, py_index l 1 = Some a ∧ py_index l 0 = Some b
           ∧ py_index l (-1) = Some c ∧ last l = Some c ∧ l !! 1%nat = Some a.
Proof.
  intros Hlen. destruct l as [|b [|a l]]; simpl in Hlen; try lia.
  destruct (last_is_Some (b :: a :: l)) as [_ [c Hc]]; [done|].
  exists a, b, c. repeat split; try done.
  unfold py_index. rewrite decide_False by lia.
  rewrite decide_True by (simpl; lia). rewrite last_lookup in Hc.
  rewrite <- Hc. f_equal; simpl; lia.
Qed.

(** What [train] does after the trainer returned [trained] and the ticks
    left at least two entries in [times]. *)
Lemma train_after_ticks (ppo_train : pydict → NetworkFactory → TrainerRun)
    (w w1 : World) (nf : NetworkFactory) (kw : pydict) (trained : PyTree)
    (t0 t1 tn : Z) :
  training_arguments (rl_config (training_state (self w))) = Ok (nf, kw) →
  run_ticks (ticks (ppo_train kw nf)) w = (w1, Ok ()) →
  outcome (ppo_train kw nf) = Ok trained →
  py_index (times (training_state (self w1))) 1 = Some t1 →
  py_index (times (training_state (self w1))) 0 = Some t0 →
  py_index (times (training_state (self w1))) (-1) = Some tn →
  let w2 := {| self := self w1; fs := fs w1; clock := clock w1;
               logs := logs w1 ++ [LogTimeToJit (t1 - t0);
                                   LogTimeToTrain (tn - t1)] |} in
  train ppo_train w
  = if args_save_model (args (self w1))
    then save_model
           {| self := set_training_state
                        (set_params trained (training_state (self w1))) (self w1);
              fs := fs w1; clock := clock w1; logs := logs w2 |}
    else (w2, Ok ()).
Proof.
  intros Hargs Hrun Hout H1 H0 Hn. unfold train. munfold. simpl.
  rewrite Hargs. simpl. rewrite Hrun. simpl. rewrite Hout. simpl.
  rewrite H1. simpl. rewrite H0. simpl. rewrite Hn. simpl.
  rewrite <- app_assoc. simpl.
  destruct (args_save_model (args (self w1))); [|done].
  by destruct (save_model _) as [w' [[]|e]].
Qed.

(** X7.  Without the save flag, [train] keeps nothing of what the trainer
    returns: whether it returns or raises, [training_state.params] and
    everything under [checkpoints/] are as before the call. *)
Theorem train_without_save_flag (ppo_train : pydict → NetworkFactory → TrainerRun)
    (w : World) :
  args_save_model (args (self w)) = false →
  params (training_state (self (train ppo_train w).1))
  = params (training_state (self w))
  ∧ checkpoints (fs (train ppo_train w).1) = checkpoints (fs w).
Proof.
  intros Hflag. unfold train. munfold. simpl.
  destruct (training_arguments _) as [[nf kw]|e]; simpl; [|done].
  destruct (run_ticks_frame (ticks (ppo_train kw nf)) w) as (Hc & _ & Hp).
  destruct (keeps_run_ticks (ticks (ppo_train kw nf)) w) as (Ha & _).
  destruct (run_ticks (ticks (ppo_train kw nf)) w) as [w1 [[]|e]];
    simpl in *; [|done].
  destruct (outcome (ppo_train kw nf)) as [trained|e]; simpl; [|done].
  destruct (py_index (times (training_state (self w1))) 1); simpl; [|done].
  destruct (py_index (times (training_state (self w1))) 0); simpl; [|done].
  destruct (py_index (times (training_state (self w1))) (-1)); simpl; [|done].
  by rewrite Ha, Hflag.
Qed.

Lemma train_without_save_flag_witness :
  let w := __init__ {| args_env := "zbot"; args_task := "walking";
                       args_debug := true; args_save_model := false |}
                    4 empty_fs 0 [] in
  (train one_tick_trainer w).2 = Ok ()
  ∧ params (training_state (self (train one_tick_trainer w).1)) = TreeNone
  ∧ checkpoints (fs (train one_tick_trainer w).1) = ∅.
Proof.
  intros w. split; [by vm_compute|].
  apply (train_without_save_flag one_tick_trainer w). reflexivity.
Defined.

(** X8.  A failure during training is passed on as it is: when a tick
    raises, or when the ticks return and the trainer raises, [train] raises
    the same exception in the world the ticks left, with no duration
    logged, no parameters stored and nothing written under
    [checkpoints/]. *)
Theorem train_propagates (ppo_train : pydict → NetworkFactory → TrainerRun)
    (w w1 : World) (nf : NetworkFactory) (kw : pydict) (e : exn) :
  training_arguments (rl_config (training_state (self w))) = Ok (nf, kw) →
  run_ticks (ticks (ppo_train kw nf)) w = (w1, Raise e)
  ∨ (run_ticks (ticks (ppo_train kw nf)) w = (w1, Ok ())
     ∧ outcome (ppo_train kw nf) = Raise e) →
  train ppo_train w = (w1, Raise e)
  ∧ logs w1 = logs w
  ∧ params (training_state (self w1)) = params (training_state (self w))
  ∧ checkpoints (fs w1) = checkpoints (fs w).
Proof.
  intros Hargs Hfail.
  destruct (run_ticks_frame (ticks (ppo_train kw nf)) w) as (Hc & Hl & Hp).
  unfold train. munfold. simpl. rewrite Hargs. simpl.
  destruct Hfail as [Hrun|[Hrun Hout]]; rewrite Hrun in *; simpl in *.
  - done.
  - by rewrite Hout.
Qed.


Lemma train_propagates_witness :
  train diverging_trainer fresh_world
  = (fresh_world, Raise (ExternalError "diverged")).
Proof.
  refine (proj1 (train_propagates diverging_trainer fresh_world fresh_world
                   (make_ppo_networks_with network_kwargs)
                   (dict_del "network_factory"
                      (rl_config (training_state (self fresh_world))))
                   (ExternalError "diverged") _ _)).
  - reflexivity.
  - right. split; reflexivity.
Defined.
